(** * Chart generators of the flight dashboard (src/components/charts.py)

    The three generators [create_choropleth], [create_animated_airline_chart]
    and [create_sunburst] are embedded as programs of a small store-and-
    exception monad.  Tables (pandas DataFrames) live in a store and are
    passed by reference, as in Python; the figure under construction is a
    local value.  Calls into pandas and plotly are modelled by the
    operations of the sections "Tables" and "Plotly express"; only the
    attributes of a figure that carry data or text are kept, fonts,
    colours of the page and margins are left out.  Numbers are exact
    rationals: the rounding of binary floating point is not modelled. *)

From Stdlib Require Import ZArith QArith String List Permutation Sorted Lia.
From Stdlib Require Import DecimalString DecimalPos DecimalZ Lqa Qround.
From stdpp Require Import base gmap strings list.

Local Open Scope Z_scope.
#[local] Set Warnings "-clear-no-such-hyp".

(** ** Python values *)

(** A cell of a table: a number (int and float columns alike, as exact
    rationals) or a string. *)
Inductive cell : Type :=
  | Num (q : Q)
  | Str (s : string).

(** What a reduction such as [Series.max] returns: a cell, or NaN on an
    empty column. *)
Inductive pyval : Type :=
  | PNaN
  | PCell (c : cell).

(** The exceptions the generators can end with.  [BadRef] is not a Python
    exception: it stands for a reference that is not in the store, which
    Python rules out. *)
Inductive exn : Type :=
  | KeyError (key : string)
  | ValueError
  | TypeError
  | IndexError
  | BadRef.

Inductive result (A : Type) : Type :=
  | Ok (a : A)
  | Raise (e : exn).
Arguments Ok {A} a.
Arguments Raise {A} e.

(** [str(n)] of a Python int. *)
Definition str_of_Z (n : Z) : string := NilZero.string_of_int (Z.to_int n).

(** ** Rows of the three tables *)

Record StateMetricsRow : Type := {
  sm_StateCode : string;
  sm_StateName : string;
  sm_AvgDepDelay : Q;
  sm_CancellationRate : Q;
  sm_FlightCount : Z
}.

Record DailyAirlineMetricsRow : Type := {
  da_Day : Z;
  da_Airline : string;
  da_FlightCount : Z;
  da_AvgDepDelay : Q;
  da_OnTimeRate : Q;
  da_CancellationRate : Q
}.

Record HierarchyRow : Type := {
  hr_State : string;
  hr_City : string;
  hr_Airport : string;
  hr_Airline : string;
  hr_FlightCount : Z;
  hr_AvgDelay : Q
}.

(** A DataFrame is one of the three tables; its kind fixes its columns. *)
Inductive DataFrame : Type :=
  | StateMetrics (rows : list StateMetricsRow)
  | DailyAirlineMetrics (rows : list DailyAirlineMetricsRow)
  | HierarchyData (rows : list HierarchyRow).

(** Column access by name: [None] when the table has no such column. *)
Definition column_fn (R : Type) : Type := string -> option (R -> cell).

Definition state_column : column_fn StateMetricsRow := fun c =>
  if String.eqb c "StateCode" then Some (fun r => Str (sm_StateCode r))
  else if String.eqb c "StateName" then Some (fun r => Str (sm_StateName r))
  else if String.eqb c "AvgDepDelay" then Some (fun r => Num (sm_AvgDepDelay r))
  else if String.eqb c "CancellationRate" then Some (fun r => Num (sm_CancellationRate r))
  else if String.eqb c "FlightCount" then Some (fun r => Num (inject_Z (sm_FlightCount r)))
  else None.

Definition daily_column : column_fn DailyAirlineMetricsRow := fun c =>
  if String.eqb c "Day" then Some (fun r => Num (inject_Z (da_Day r)))
  else if String.eqb c "Airline" then Some (fun r => Str (da_Airline r))
  else if String.eqb c "FlightCount" then Some (fun r => Num (inject_Z (da_FlightCount r)))
  else if String.eqb c "AvgDepDelay" then Some (fun r => Num (da_AvgDepDelay r))
  else if String.eqb c "OnTimeRate" then Some (fun r => Num (da_OnTimeRate r))
  else if String.eqb c "CancellationRate" then Some (fun r => Num (da_CancellationRate r))
  else None.

Definition hierarchy_column : column_fn HierarchyRow := fun c =>
  if String.eqb c "State" then Some (fun r => Str (hr_State r))
  else if String.eqb c "City" then Some (fun r => Str (hr_City r))
  else if String.eqb c "Airport" then Some (fun r => Str (hr_Airport r))
  else if String.eqb c "Airline" then Some (fun r => Str (hr_Airline r))
  else if String.eqb c "FlightCount" then Some (fun r => Num (inject_Z (hr_FlightCount r)))
  else if String.eqb c "AvgDelay" then Some (fun r => Num (hr_AvgDelay r))
  else None.

(** ** Order on cells and stable sorting *)

(** Numbers by value, strings lexicographically.  A column holds one kind
    of cell, so the mixed cases (numbers first) are never compared. *)
Definition cell_leb (a b : cell) : bool :=
  match a, b with
  | Num x, Num y => Qle_bool x y
  | Str s, Str t => String.leb s t
  | Num _, Str _ => true
  | Str _, Num _ => false
  end.

Definition cell_max (a b : cell) : cell := if cell_leb a b then b else a.

(** [Series.max()]: NaN on an empty column. *)
Definition series_max (col : list cell) : pyval :=
  match col with
  | [] => PNaN
  | c :: cs => PCell (fold_left cell_max cs c)
  end.

(** Stable insertion sort: an element goes before the first element that
    it does not exceed, so equal keys keep their input order. *)
Fixpoint insert_sorted {A : Type} (leb : A -> A -> bool) (x : A) (l : list A) : list A :=
  match l with
  | [] => [x]
  | y :: l' => if leb x y then x :: y :: l' else y :: insert_sorted leb x l'
  end.

Fixpoint stable_sort {A : Type} (leb : A -> A -> bool) (l : list A) : list A :=
  match l with
  | [] => []
  | x :: l' => insert_sorted leb x (stable_sort leb l')
  end.

(** One sort key: a column and its direction ([true] is ascending). *)
Definition key_leb {R : Type} (k : (R -> cell) * bool) (r1 r2 : R) : bool :=
  if snd k then cell_leb (fst k r1) (fst k r2) else cell_leb (fst k r2) (fst k r1).

(** Lexicographic comparison on a list of keys, first key first. *)
Fixpoint lex_leb {R : Type} (keys : list ((R -> cell) * bool)) (r1 r2 : R) : bool :=
  match keys with
  | [] => true
  | k :: ks =>
      if key_leb k r1 r2
      then (if key_leb k r2 r1 then lex_leb ks r1 r2 else true)
      else false
  end.

(** Resolving the [by] and [ascending] arguments of [sort_values]: a
    missing column is a KeyError, lists of different lengths a
    ValueError. *)
Fixpoint sort_keys {R : Type} (col : column_fn R) (by_ : list string) (ascending : list bool)
  : result (list ((R -> cell) * bool)) :=
  match by_, ascending with
  | [], [] => Ok []
  | c :: cs, a :: asc =>
      match col c with
      | None => Raise (KeyError c)
      | Some f =>
          match sort_keys col cs asc with
          | Ok ks => Ok ((f, a) :: ks)
          | Raise e => Raise e
          end
      end
  | _, _ => Raise ValueError
  end.

(** [Series.unique()]: the distinct values in order of first appearance. *)
Fixpoint unique_from {A : Type} `{EqDecision A} (seen l : list A) : list A :=
  match l with
  | [] => []
  | x :: l' =>
      if bool_decide (x ∈ seen) then unique_from seen l'
      else x :: unique_from (x :: seen) l'
  end.

Definition unique {A : Type} `{EqDecision A} (l : list A) : list A := unique_from [] l.

(** ** The store and the monad of the generators *)

(** References to tables, and the store that holds them.  A new table is
    put at the end of the store. *)
Definition loc : Type := nat.
Definition store : Type := list DataFrame.

(** A computation reads and extends the store and returns a value or
    raises; the store survives an exception. *)
Definition M (A : Type) : Type := store -> result A * store.

#[global] Instance M_ret : MRet M := fun A a σ => (Ok a, σ).

#[global] Instance M_bind : MBind M := fun A B f m σ =>
  match m σ with
  | (Ok a, σ') => f a σ'
  | (Raise e, σ') => (Raise e, σ')
  end.

Definition lift {A : Type} (r : result A) : M A := fun σ => (r, σ).

Definition load (l : loc) : M DataFrame := fun σ =>
  match σ !! l with
  | Some df => (Ok df, σ)
  | None => (Raise BadRef, σ)
  end.

Definition alloc (df : DataFrame) : M loc := fun σ => (Ok (length σ), σ ++ [df]).

(** ** Tables: the pandas operations the generators use *)

Definition frame_getitem {R : Type} (col : column_fn R) (rows : list R) (c : string)
  : result (list cell) :=
  match col c with
  | Some f => Ok (map f rows)
  | None => Raise (KeyError c)
  end.

(** [df[c]]: the column [c], or KeyError. *)
Definition getitem (df : DataFrame) (c : string) : result (list cell) :=
  match df with
  | StateMetrics rows => frame_getitem state_column rows c
  | DailyAirlineMetrics rows => frame_getitem daily_column rows c
  | HierarchyData rows => frame_getitem hierarchy_column rows c
  end.

(** Rows selected by a boolean mask of the same length. *)
Fixpoint mask_rows {R : Type} (rows : list R) (mask : list bool) : list R :=
  match rows, mask with
  | r :: rs, b :: bs => if b then r :: mask_rows rs bs else mask_rows rs bs
  | _, _ => []
  end.

(** [df[mask]]: a new table with the selected rows. *)
Definition getitem_mask (df : DataFrame) (mask : list bool) : DataFrame :=
  match df with
  | StateMetrics rows => StateMetrics (mask_rows rows mask)
  | DailyAirlineMetrics rows => DailyAirlineMetrics (mask_rows rows mask)
  | HierarchyData rows => HierarchyData (mask_rows rows mask)
  end.

(** [series.isin(values)] for a collection of strings. *)
Definition isin (col : list cell) (values : list string) : list bool :=
  map (fun c => match c with Str s => bool_decide (s ∈ values) | Num _ => false end) col.

(** [series == value] for a string. *)
Definition series_eq (col : list cell) (value : string) : list bool :=
  map (fun c => match c with Str s => String.eqb s value | Num _ => false end) col.

Definition frame_sort_values {R : Type} (col : column_fn R) (rows : list R)
    (by_ : list string) (ascending : list bool) : result (list R) :=
  match sort_keys col by_ ascending with
  | Ok keys => Ok (stable_sort (lex_leb keys) rows)
  | Raise e => Raise e
  end.

(** [df.sort_values(by, ascending=...)]: a new, sorted table. *)
Definition sort_values (df : DataFrame) (by_ : list string) (ascending : list bool)
  : result DataFrame :=
  match df with
  | StateMetrics rows =>
      match frame_sort_values state_column rows by_ ascending with
      | Ok rows' => Ok (StateMetrics rows') | Raise e => Raise e end
  | DailyAirlineMetrics rows =>
      match frame_sort_values daily_column rows by_ ascending with
      | Ok rows' => Ok (DailyAirlineMetrics rows') | Raise e => Raise e end
  | HierarchyData rows =>
      match frame_sort_values hierarchy_column rows by_ ascending with
      | Ok rows' => Ok (HierarchyData rows') | Raise e => Raise e end
  end.

(** The same operations on references. *)
Definition df_copy (l : loc) : M loc := df ← load l; alloc df.

Definition df_getitem (l : loc) (c : string) : M (list cell) :=
  df ← load l; lift (getitem df c).

Definition df_getitem_mask (l : loc) (mask : list bool) : M loc :=
  df ← load l; alloc (getitem_mask df mask).

Definition df_sort_values (l : loc) (by_ : list string) (ascending : list bool) : M loc :=
  df ← load l; sorted ← lift (sort_values df by_ ascending); alloc sorted.

(** ** Figures *)

Inductive hover : Type :=
  | PxHover
  | HoverTemplate (s : string).

Inductive colorscale : Type :=
  | NamedScale (name : string)
  | ScaleStops (stops : list (Q * string)).

(** A label of the map overlay, the f-string
    [f"{StateName}<br>{value:{value_format}}{hover_suffix}"] with the
    number left unformatted. *)
Record MapLabel : Type := {
  label_name : cell;
  label_value : Q;
  label_format : string;
  label_suffix : string
}.

Inductive Trace : Type :=
  | Choropleth (locations z : list cell) (customdata : list (cell * cell))
      (hovertemplate : hover)
  | Scattergeo (locations : list cell) (text : list MapLabel)
  | Bar (name : string) (x y : list cell) (marker_color : string)
      (customdata : list DailyAirlineMetricsRow) (hovertemplate : hover)
  | Sunburst (leaves : list HierarchyRow) (hovertemplate : hover)
      (textinfo : option string).

Record Frame : Type := {
  frame_name : string;
  frame_data : list Trace
}.

(** A button of the animation menu with the two durations of its
    [args[1]]. *)
Record Button : Type := {
  button_label : string;
  frame_duration : Z;
  transition_duration : Z
}.

Record UpdateMenu : Type := { buttons : list Button }.

Record Slider : Type := {
  slider_steps : list string;
  currentvalue_prefix : string
}.

Record Layout : Type := {
  title_text : option string;
  xaxis_title : option string;
  xaxis_range : option (Q * Q);
  yaxis_title : option string;
  yaxis_categoryorder : option string;
  coloraxis_colorscale : option colorscale;
  coloraxis_range : option (Q * Q);
  coloraxis_colorbar_title : option string;
  height : option Z;
  showlegend : option bool;
  updatemenus : list UpdateMenu;
  sliders : list Slider
}.

Record Figure : Type := {
  data : list Trace;
  layout : Layout;
  frames : list Frame
}.

Definition empty_layout : Layout := {|
  title_text := None; xaxis_title := None; xaxis_range := None;
  yaxis_title := None; yaxis_categoryorder := None;
  coloraxis_colorscale := None; coloraxis_range := None;
  coloraxis_colorbar_title := None; height := None; showlegend := None;
  updatemenus := []; sliders := []
|}.

(** [fig.update_traces(hovertemplate=...)]: the traces of [fig.data], not
    those stored in the frames. *)
Definition set_hovertemplate (h : string) (t : Trace) : Trace :=
  match t with
  | Choropleth l z c _ => Choropleth l z c (HoverTemplate h)
  | Scattergeo l t => Scattergeo l t
  | Bar n x y m c _ => Bar n x y m c (HoverTemplate h)
  | Sunburst l _ ti => Sunburst l (HoverTemplate h) ti
  end.

Definition update_traces (f : Trace -> Trace) (fig : Figure) : Figure :=
  {| data := map f (data fig); layout := layout fig; frames := frames fig |}.

Definition add_trace (t : Trace) (fig : Figure) : Figure :=
  {| data := data fig ++ [t]; layout := layout fig; frames := frames fig |}.

(** ** Python helpers *)

(** [d.get(k, default)] on a dict with string keys. *)
Definition dict_get {V : Type} (d : gmap string V) (k : string) (dflt : V) : V :=
  default dflt (d !! k).

(** Truth value of an optional collection: [None] and the empty
    collection are false. *)
Definition truthy_list {A : Type} (o : option (list A)) : bool :=
  match o with
  | Some (_ :: _) => true
  | _ => false
  end.

(** Truth value of an optional string: [None] and [''] are false. *)
Definition truthy_str (o : option string) : bool :=
  match o with
  | Some (String _ _) => true
  | _ => false
  end.

Definition py_len {A : Type} (o : option (list A)) : Z :=
  Z.of_nat (length (default [] o)).

(** [max_value * 1.1 if max_value > 0 else 100] (charts.py, line 195).
    NaN compares false with every number; a string cannot be compared
    with [0]. *)
Definition x_range_max (max_value : pyval) : result Q :=
  match max_value with
  | PNaN => Ok 100%Q
  | PCell (Num q) => Ok (if negb (Qle_bool q 0) then (q * (11 # 10))%Q else 100%Q)
  | PCell (Str _) => Raise TypeError
  end.

Fixpoint map_result {A B : Type} (f : A -> result B) (l : list A) : result (list B) :=
  match l with
  | [] => Ok []
  | x :: l' =>
      match f x with
      | Raise e => Raise e
      | Ok y =>
          match map_result f l' with
          | Raise e => Raise e
          | Ok ys => Ok (y :: ys)
          end
      end
  end.

(** ** Palette and metric descriptors *)

(** [COLORS['chart_palette']]. *)
Definition chart_palette : list string :=
  ["#0d9488"; "#0ea5e9"; "#f59e0b"; "#8b5cf6"; "#ef4444";
   "#06b6d4"; "#ec4899"; "#84cc16"; "#6366f1"; "#14b8a6"].

Record ChoroplethConfig : Type := {
  ch_title : string;
  ch_color_scale : string;
  ch_labels_z : string;
  ch_hover_suffix : string;
  ch_value_format : string
}.

Definition choropleth_AvgDepDelay : ChoroplethConfig := {|
  ch_title := "Average Departure Delay by State";
  ch_color_scale := "Teal";
  ch_labels_z := "Avg Delay (min)";
  ch_hover_suffix := " min";
  ch_value_format := ".1f"
|}.

Definition choropleth_CancellationRate : ChoroplethConfig := {|
  ch_title := "Flight Cancellation Rate by State";
  ch_color_scale := "Teal";
  ch_labels_z := "Cancel Rate (%)";
  ch_hover_suffix := "%";
  ch_value_format := ".2f"
|}.

Definition choropleth_FlightCount : ChoroplethConfig := {|
  ch_title := "Total Flight Volume by State";
  ch_color_scale := "Teal";
  ch_labels_z := "Total Flights";
  ch_hover_suffix := " flights";
  ch_value_format := ",.0f"
|}.

(** [metric_config] of [create_choropleth]. *)
Definition choropleth_metric_config : gmap string ChoroplethConfig :=
  <["AvgDepDelay" := choropleth_AvgDepDelay]>
  (<["CancellationRate" := choropleth_CancellationRate]>
  (<["FlightCount" := choropleth_FlightCount]> ∅)).

Record AnimatedConfig : Type := {
  an_title : string;
  an_subtitle : string;
  an_x_label : string;
  an_format : string;
  an_suffix : string
}.

Definition animated_FlightCount : AnimatedConfig := {|
  an_title := "Daily Flight Volume by Airline";
  an_subtitle := "Number of flights operated each day";
  an_x_label := "Daily Flights";
  an_format := ":,";
  an_suffix := " flights"
|}.

Definition animated_AvgDepDelay : AnimatedConfig := {|
  an_title := "Average Departure Delay by Airline";
  an_subtitle := "Daily average delay in minutes";
  an_x_label := "Avg Delay (min)";
  an_format := ":.1f";
  an_suffix := " min"
|}.

Definition animated_OnTimeRate : AnimatedConfig := {|
  an_title := "On-Time Performance by Airline";
  an_subtitle := "Percentage of flights arriving within 15 minutes";
  an_x_label := "On-Time %";
  an_format := ":.1f";
  an_suffix := "%"
|}.

(** [metric_config] of [create_animated_airline_chart]. *)
Definition animated_metric_config : gmap string AnimatedConfig :=
  <["FlightCount" := animated_FlightCount]>
  (<["AvgDepDelay" := animated_AvgDepDelay]>
  (<["OnTimeRate" := animated_OnTimeRate]> ∅)).

(** [vibrant_scale] of [create_sunburst]. *)
Definition vibrant_scale : list (Q * string) :=
  [(0%Q, "#0891b2"); ((2 # 10)%Q, "#0d9488"); ((4 # 10)%Q, "#14b8a6");
   ((6 # 10)%Q, "#fbbf24"); ((8 # 10)%Q, "#f97316"); (1%Q, "#dc2626")].

(** ** Plotly express

    A plotly express function reads the table it is given and builds its
    figure from a table of its own: the argument is left as it is.  A
    column name that the table does not have is a ValueError. *)

Definition set_layout (l : Layout) (fig : Figure) : Figure :=
  {| data := data fig; layout := l; frames := frames fig |}.

Definition set_updatemenus (ms : list UpdateMenu) (l : Layout) : Layout := {|
  title_text := title_text l; xaxis_title := xaxis_title l;
  xaxis_range := xaxis_range l; yaxis_title := yaxis_title l;
  yaxis_categoryorder := yaxis_categoryorder l;
  coloraxis_colorscale := coloraxis_colorscale l;
  coloraxis_range := coloraxis_range l;
  coloraxis_colorbar_title := coloraxis_colorbar_title l;
  height := height l; showlegend := showlegend l;
  updatemenus := ms; sliders := sliders l
|}.

Definition set_sliders (ss : list Slider) (l : Layout) : Layout := {|
  title_text := title_text l; xaxis_title := xaxis_title l;
  xaxis_range := xaxis_range l; yaxis_title := yaxis_title l;
  yaxis_categoryorder := yaxis_categoryorder l;
  coloraxis_colorscale := coloraxis_colorscale l;
  coloraxis_range := coloraxis_range l;
  coloraxis_colorbar_title := coloraxis_colorbar_title l;
  height := height l; showlegend := showlegend l;
  updatemenus := updatemenus l; sliders := ss
|}.

(** *** px.choropleth

    [px.choropleth(df, locations='StateCode', locationmode='USA-states',
    color=metric, scope='usa', color_continuous_scale=..., labels=...,
    hover_data={StateCode: False, StateName: True, FlightCount: ':,',
    metric: ...})].  A column name that the table does not have is a
    ValueError.  One trace with the state codes, the colour column and the
    hover columns StateName and FlightCount; the colour bar is titled by
    the colour column (the [labels] argument renames a column [z], which
    no table has). *)
Definition px_choropleth (df : DataFrame) (color : string) (color_continuous_scale : string)
  : result Figure :=
  match df with
  | StateMetrics rows =>
      match state_column color with
      | None => Raise ValueError
      | Some fz =>
          Ok {| data :=
                  [Choropleth (map (fun r => Str (sm_StateCode r)) rows) (map fz rows)
                     (map (fun r => (Str (sm_StateName r), Num (inject_Z (sm_FlightCount r)))) rows)
                     PxHover];
                layout := {|
                  title_text := None; xaxis_title := None; xaxis_range := None;
                  yaxis_title := None; yaxis_categoryorder := None;
                  coloraxis_colorscale := Some (NamedScale color_continuous_scale);
                  coloraxis_range := None;
                  coloraxis_colorbar_title := Some color;
                  height := None; showlegend := None;
                  updatemenus := []; sliders := [] |};
                frames := [] |}
      end
  | _ => Raise ValueError
  end.

(** *** px.bar

    [px.bar(df, x=metric, y='Airline', color='Airline',
    animation_frame='Day', orientation='h', color_discrete_sequence=
    COLORS['chart_palette'], hover_data=...)].  The rows are grouped by
    airline and day, both in order of first appearance; each group is one
    bar trace, coloured by the position of its airline in the palette
    (cycling); the traces of a day form its frame, named [str(day)].  The
    figure shows the first frame.  Frames, play button and slider are kept
    only when there is more than one frame. *)
Definition rows_of_day (d : Z) (rows : list DailyAirlineMetricsRow) : list DailyAirlineMetricsRow :=
  List.filter (fun r => Z.eqb (da_Day r) d) rows.

Definition rows_of_airline (a : string) (rows : list DailyAirlineMetricsRow)
  : list DailyAirlineMetricsRow :=
  List.filter (fun r => String.eqb (da_Airline r) a) rows.

Definition bar_trace (fx : DailyAirlineMetricsRow -> cell) (i : nat) (a : string)
    (rs : list DailyAirlineMetricsRow) : Trace :=
  Bar a (map fx rs) (map (fun r => Str (da_Airline r)) rs)
    (default "" (chart_palette !! (i mod length chart_palette)%nat)) rs PxHover.

Definition frame_traces (fx : DailyAirlineMetricsRow -> cell) (airlines : list string)
    (rs : list DailyAirlineMetricsRow) : list Trace :=
  concat (imap (fun i a =>
                  match rows_of_airline a rs with
                  | [] => []
                  | g => [bar_trace fx i a g]
                  end) airlines).

Definition bar_frame (fx : DailyAirlineMetricsRow -> cell) (rows : list DailyAirlineMetricsRow)
    (d : Z) : Frame :=
  {| frame_name := str_of_Z d;
     frame_data := frame_traces fx (unique (map da_Airline rows)) (rows_of_day d rows) |}.

Definition px_play_button : Button :=
  {| button_label := "&#9654;"; frame_duration := 500; transition_duration := 500 |}.

Definition px_stop_button : Button :=
  {| button_label := "&#9724;"; frame_duration := 0; transition_duration := 0 |}.

Definition px_bar (df : DataFrame) (x : string) : result Figure :=
  match df with
  | DailyAirlineMetrics rows =>
      match daily_column x with
      | None => Raise ValueError
      | Some fx =>
          let frame_list := map (bar_frame fx rows) (unique (map da_Day rows)) in
          let animated := (1 <? Z.of_nat (length frame_list)) in
          Ok {| data := match frame_list with f :: _ => frame_data f | [] => [] end;
                layout := {|
                  title_text := None; xaxis_title := Some x; xaxis_range := None;
                  yaxis_title := Some "Airline"; yaxis_categoryorder := None;
                  coloraxis_colorscale := None; coloraxis_range := None;
                  coloraxis_colorbar_title := None;
                  height := None; showlegend := None;
                  updatemenus :=
                    if animated
                    then [{| buttons := [px_play_button; px_stop_button] |}] else [];
                  sliders :=
                    if animated
                    then [{| slider_steps := map frame_name frame_list;
                             currentvalue_prefix := "Day=" |}] else [] |};
                frames := if animated then frame_list else [] |}
      end
  | _ => Raise ValueError
  end.

(** *** px.sunburst

    [px.sunburst(df, path=['State','City','Airport','Airline'],
    values='FlightCount', color='AvgDelay', color_continuous_scale=...,
    range_color=..., hover_data=...)].  The trace is kept as the leaf rows
    it is built from.  Plotly can refuse a table (a segment whose flight
    counts sum to zero has no weighted average delay): which tables it
    refuses is left open as [sunburst_check]. *)
Definition px_sunburst (sunburst_check : list HierarchyRow -> option exn) (df : DataFrame)
    (color_continuous_scale : list (Q * string)) (range_color : Q * Q) : result Figure :=
  match df with
  | HierarchyData rows =>
      match sunburst_check rows with
      | Some e => Raise e
      | None =>
          Ok {| data := [Sunburst rows PxHover None];
                layout := {|
                  title_text := None; xaxis_title := None; xaxis_range := None;
                  yaxis_title := None; yaxis_categoryorder := None;
                  coloraxis_colorscale := Some (ScaleStops color_continuous_scale);
                  coloraxis_range := Some range_color;
                  coloraxis_colorbar_title := Some "AvgDelay";
                  height := None; showlegend := None;
                  updatemenus := []; sliders := [] |};
                frames := [] |}
      end
  | _ => Raise ValueError
  end.

(** ** 1. US state choropleth map *)

(** [fig.update_layout(title=dict(text=config['title'], ...), ...,
    height=500, coloraxis_colorbar=dict(title=dict(text=
    config['labels']['z'], ...), ...))]. *)
Definition choropleth_layout (config : ChoroplethConfig) (l : Layout) : Layout := {|
  title_text := Some (ch_title config);
  xaxis_title := xaxis_title l; xaxis_range := xaxis_range l;
  yaxis_title := yaxis_title l; yaxis_categoryorder := yaxis_categoryorder l;
  coloraxis_colorscale := coloraxis_colorscale l;
  coloraxis_range := coloraxis_range l;
  coloraxis_colorbar_title := Some (ch_labels_z config);
  height := Some 500; showlegend := showlegend l;
  updatemenus := updatemenus l; sliders := sliders l
|}.

Definition choropleth_hovertemplate (config : ChoroplethConfig) : string :=
  "<b>%{customdata[0]}</b><br>" +:+
  (ch_labels_z config +:+ ": %{z:" +:+ ch_value_format config +:+ "}" +:+
   ch_hover_suffix config +:+ "<br>") +:+
  "Total Flights: %{customdata[1]:,}<extra></extra>".

(** The label of one row,
    [f"{row['StateName']}<br>{row[metric]:{value_format}}{hover_suffix}"]:
    the three formats are fixed-point formats, which a string value
    rejects with a ValueError. *)
Definition map_label {R : Type} (col : column_fn R) (metric : string)
    (config : ChoroplethConfig) (row : R) : result MapLabel :=
  match col "StateName" with
  | None => Raise (KeyError "StateName")
  | Some fname =>
      match col metric with
      | None => Raise (KeyError metric)
      | Some fvalue =>
          match fvalue row with
          | Num q => Ok {| label_name := fname row; label_value := q;
                           label_format := ch_value_format config;
                           label_suffix := ch_hover_suffix config |}
          | Str _ => Raise ValueError
          end
      end
  end.

(** [df.apply(lambda row: ..., axis=1)] with the label as the function. *)
Definition apply_map_label (df : DataFrame) (metric : string) (config : ChoroplethConfig)
  : result (list MapLabel) :=
  match df with
  | StateMetrics rows => map_result (map_label state_column metric config) rows
  | DailyAirlineMetrics rows => map_result (map_label daily_column metric config) rows
  | HierarchyData rows => map_result (map_label hierarchy_column metric config) rows
  end.

Definition create_choropleth (state_metrics_df : loc) (metric : string) : M Figure :=
  let config := dict_get choropleth_metric_config metric choropleth_AvgDepDelay in
  df ← load state_metrics_df;
  fig ← lift (px_choropleth df metric (ch_color_scale config));
  let fig := set_layout (choropleth_layout config (layout fig)) fig in
  let fig := update_traces (set_hovertemplate (choropleth_hovertemplate config)) fig in
  (* labels for state name and metric value on the map *)
  locations ← df_getitem state_metrics_df "StateCode";
  df ← load state_metrics_df;
  text ← lift (apply_map_label df metric config);
  mret (add_trace (Scattergeo locations text) fig).

(** ** 2. Animated airline performance *)

(** [fig.update_layout(title=..., xaxis=dict(title=..., range=[0,
    x_range_max]), yaxis=dict(title=dict(text=''), categoryorder='total
    ascending', ...), ..., height=500, showlegend=False, ...)]. *)
Definition animated_layout (config : AnimatedConfig) (x_range_max : Q) (l : Layout)
  : Layout := {|
  title_text := Some (an_title config +:+ "<br><sub>" +:+ an_subtitle config +:+ "</sub>");
  xaxis_title := Some (an_x_label config);
  xaxis_range := Some (0%Q, x_range_max);
  yaxis_title := Some "";
  yaxis_categoryorder := Some "total ascending";
  coloraxis_colorscale := coloraxis_colorscale l;
  coloraxis_range := coloraxis_range l;
  coloraxis_colorbar_title := coloraxis_colorbar_title l;
  height := Some 500; showlegend := Some false;
  updatemenus := updatemenus l; sliders := sliders l
|}.

Definition animated_hovertemplate (config : AnimatedConfig) : string :=
  "<b>%{y}</b><br>" +:+
  (an_x_label config +:+ ": %{x" +:+ an_format config +:+ "}" +:+
   an_suffix config +:+ "<br>") +:+
  "Day: %{customdata[0]}<br>" +:+
  "Daily Flights: %{customdata[1]:,}<br>" +:+
  "Avg Delay: %{customdata[2]:.1f} min<br>" +:+
  "On-Time: %{customdata[3]:.1f}%<br>" +:+
  "Cancellation: %{customdata[4]:.2f}%<extra></extra>".

(** [fig.layout.updatemenus[0].buttons[0].args[1]["frame"]["duration"] =
    d]: indexing an empty tuple of menus or buttons is an IndexError. *)
Definition set_frame_duration (d : Z) (fig : Figure) : result Figure :=
  match updatemenus (layout fig) with
  | [] => Raise IndexError
  | m :: ms =>
      match buttons m with
      | [] => Raise IndexError
      | b :: bs =>
          let b' := {| button_label := button_label b; frame_duration := d;
                       transition_duration := transition_duration b |} in
          Ok (set_layout (set_updatemenus ({| buttons := b' :: bs |} :: ms) (layout fig)) fig)
      end
  end.

(** The same for [...args[1]["transition"]["duration"] = d]. *)
Definition set_transition_duration (d : Z) (fig : Figure) : result Figure :=
  match updatemenus (layout fig) with
  | [] => Raise IndexError
  | m :: ms =>
      match buttons m with
      | [] => Raise IndexError
      | b :: bs =>
          let b' := {| button_label := button_label b; frame_duration := frame_duration b;
                       transition_duration := d |} in
          Ok (set_layout (set_updatemenus ({| buttons := b' :: bs |} :: ms) (layout fig)) fig)
      end
  end.

(** [if fig.layout.sliders: fig.layout.sliders[0].currentvalue =
    dict(prefix="Day: ", ...)]. *)
Definition style_slider (fig : Figure) : Figure :=
  match sliders (layout fig) with
  | [] => fig
  | s :: ss =>
      set_layout (set_sliders ({| slider_steps := slider_steps s;
                                  currentvalue_prefix := "Day: " |} :: ss) (layout fig)) fig
  end.

(** [metric in ['FlightCount', 'OnTimeRate']] (charts.py, line 198). *)
Definition ascending_metric (metric : string) : bool :=
  bool_decide (metric ∈ ["FlightCount"; "OnTimeRate"]).

Definition create_animated_airline_chart (daily_airline_df : loc) (metric : string)
    (selected_airlines : option (list string)) : M Figure :=
  let config := dict_get animated_metric_config metric animated_FlightCount in
  (* filter airlines if specified *)
  df ← df_copy daily_airline_df;
  df ← (if truthy_list selected_airlines && (0 <? py_len selected_airlines)
        then col ← df_getitem df "Airline";
             df_getitem_mask df (isin col (default [] selected_airlines))
        else mret df);
  (* x-axis range from the filtered data, with 10% padding *)
  col ← df_getitem df metric;
  let max_value := series_max col in
  x_range_max ← lift (x_range_max max_value);
  (* sort data *)
  df ← df_sort_values df ["Day"; metric] [true; negb (ascending_metric metric)];
  sorted ← load df;
  fig ← lift (px_bar sorted metric);
  let fig := set_layout (animated_layout config x_range_max (layout fig)) fig in
  let fig := update_traces (set_hovertemplate (animated_hovertemplate config)) fig in
  (* animation settings *)
  fig ← lift (set_frame_duration 400 fig);
  fig ← lift (set_transition_duration 150 fig);
  mret (style_slider fig).

(** ** 3. Hierarchical sunburst *)

Section Sunburst.

(** Which hierarchies plotly refuses, and with what exception. *)
Variable sunburst_check : list HierarchyRow -> option exn.

Definition sunburst_subtitle (selected_state : option string) : string :=
  if truthy_str selected_state
  then "Filtered: " +:+ default "" selected_state
  else "Click to drill down: State → City → Airport → Airline".

(** [fig.update_layout(title=dict(text=f'Flight Volume Hierarchy<br><sub>
    {subtitle}</sub>', ...), ..., height=700, coloraxis_colorbar=dict(
    title=dict(text="Avg Delay<br>(minutes)", ...), ...))]. *)
Definition sunburst_layout (subtitle : string) (l : Layout) : Layout := {|
  title_text := Some ("Flight Volume Hierarchy<br><sub>" +:+ subtitle +:+ "</sub>");
  xaxis_title := xaxis_title l; xaxis_range := xaxis_range l;
  yaxis_title := yaxis_title l; yaxis_categoryorder := yaxis_categoryorder l;
  coloraxis_colorscale := coloraxis_colorscale l;
  coloraxis_range := coloraxis_range l;
  coloraxis_colorbar_title := Some "Avg Delay<br>(minutes)";
  height := Some 700; showlegend := showlegend l;
  updatemenus := updatemenus l; sliders := sliders l
|}.

(** [fig.update_traces(hovertemplate=..., textinfo='label+percent entry',
    ...)]. *)
Definition sunburst_traces (t : Trace) : Trace :=
  match t with
  | Sunburst leaves _ _ =>
      Sunburst leaves
        (HoverTemplate ("<b>%{label}</b><br>" +:+ "Flights: %{value:,}<br>" +:+
                        "Avg Delay: %{color:.1f} min<extra></extra>"))
        (Some "label+percent entry")
  | t => t
  end.

Definition create_sunburst (hierarchy_df : loc) (selected_state : option string) : M Figure :=
  (* filter by state if selected *)
  hierarchy_df ← (if truthy_str selected_state
                  then col ← df_getitem hierarchy_df "State";
                       df_getitem_mask hierarchy_df
                         (series_eq col (default "" selected_state))
                  else mret hierarchy_df);
  df ← load hierarchy_df;
  fig ← lift (px_sunburst sunburst_check df vibrant_scale (0%Q, 40%Q));
  let subtitle := sunburst_subtitle selected_state in
  let fig := set_layout (sunburst_layout subtitle (layout fig)) fig in
  mret (update_traces sunburst_traces fig).

End Sunburst.


(** ** Notions used in the statements *)

(** Two elements have the same sort key when each is below the other. *)
Definition same_key {A : Type} (leb : A -> A -> bool) (x y : A) : bool :=
  leb x y && leb y x.

(** A computation preserves the store when every table it starts from is
    still there, at the same reference, when it ends or raises. *)
Definition preserves {A : Type} (m : M A) : Prop :=
  forall σ : store, σ `prefix_of` (m σ).2.


(** ** The generators as functions of the table

    What each generator returns when its argument refers to a table of
    the expected kind, with the store steps removed; the lemmas
    [create_choropleth_run], [create_animated_airline_chart_run] and
    [create_sunburst_run] relate them to the generators. *)

(** The rows kept by the airline filter (charts.py, lines 189-191). *)
Definition select_airlines (selected_airlines : option (list string))
    (rows : list DailyAirlineMetricsRow) : list DailyAirlineMetricsRow :=
  if truthy_list selected_airlines && (0 <? py_len selected_airlines)
  then List.filter (fun r => bool_decide (da_Airline r ∈ default [] selected_airlines)) rows
  else rows.

Definition day_cell (r : DailyAirlineMetricsRow) : cell := Num (inject_Z (da_Day r)).

(** The keys of [sort_values(['Day', metric], ascending=[True, not
    ascending_metric])]. *)
Definition animated_keys (fx : DailyAirlineMetricsRow -> cell) (metric : string)
  : list ((DailyAirlineMetricsRow -> cell) * bool) :=
  [(day_cell, true); (fx, negb (ascending_metric metric))].

(** The steps after [px.bar] (charts.py, lines 221-270). *)
Definition finish_animated (config : AnimatedConfig) (x_max : Q) (fig : Figure)
  : result Figure :=
  let fig := set_layout (animated_layout config x_max (layout fig)) fig in
  let fig := update_traces (set_hovertemplate (animated_hovertemplate config)) fig in
  match set_frame_duration 400 fig with
  | Raise e => Raise e
  | Ok fig =>
      match set_transition_duration 150 fig with
      | Raise e => Raise e
      | Ok fig => Ok (style_slider fig)
      end
  end.

Definition animated_chart_of_rows (rows : list DailyAirlineMetricsRow) (metric : string)
    (selected_airlines : option (list string)) : result Figure :=
  let config := dict_get animated_metric_config metric animated_FlightCount in
  let used := select_airlines selected_airlines rows in
  match daily_column metric with
  | None => Raise (KeyError metric)
  | Some fx =>
      match x_range_max (series_max (map fx used)) with
      | Raise e => Raise e
      | Ok x_max =>
          let sorted := stable_sort (lex_leb (animated_keys fx metric)) used in
          match px_bar (DailyAirlineMetrics sorted) metric with
          | Raise e => Raise e
          | Ok fig => finish_animated config x_max fig
          end
      end
  end.

Definition choropleth_of_rows (rows : list StateMetricsRow) (metric : string)
  : result Figure :=
  let config := dict_get choropleth_metric_config metric choropleth_AvgDepDelay in
  match px_choropleth (StateMetrics rows) metric (ch_color_scale config) with
  | Raise e => Raise e
  | Ok fig =>
      let fig := set_layout (choropleth_layout config (layout fig)) fig in
      let fig := update_traces (set_hovertemplate (choropleth_hovertemplate config)) fig in
      match map_result (map_label state_column metric config) rows with
      | Raise e => Raise e
      | Ok text =>
          Ok (add_trace (Scattergeo (map (fun r => Str (sm_StateCode r)) rows) text) fig)
      end
  end.

(** The rows kept by the state filter (charts.py, lines 287-288). *)
Definition select_state (selected_state : option string) (rows : list HierarchyRow)
  : list HierarchyRow :=
  if truthy_str selected_state
  then List.filter (fun r => String.eqb (hr_State r) (default "" selected_state)) rows
  else rows.

Definition sunburst_of_rows (sunburst_check : list HierarchyRow -> option exn)
    (rows : list HierarchyRow) (selected_state : option string) : result Figure :=
  match px_sunburst sunburst_check (HierarchyData (select_state selected_state rows))
          vibrant_scale (0%Q, 40%Q) with
  | Raise e => Raise e
  | Ok fig =>
      let fig := set_layout (sunburst_layout (sunburst_subtitle selected_state) (layout fig)) fig in
      Ok (update_traces sunburst_traces fig)
  end.

(** Within one day, [r1] may come before [r2]: by decreasing metric for
    FlightCount and OnTimeRate, by increasing metric otherwise. *)
Definition metric_before (metric : string) (fx : DailyAirlineMetricsRow -> cell)
    (r1 r2 : DailyAirlineMetricsRow) : Prop :=
  if ascending_metric metric
  then cell_leb (fx r2) (fx r1) = true
  else cell_leb (fx r1) (fx r2) = true.

(** Day first, then the metric. *)
Definition day_metric_le (metric : string) (fx : DailyAirlineMetricsRow -> cell)
    (r1 r2 : DailyAirlineMetricsRow) : Prop :=
  da_Day r1 < da_Day r2 \/ (da_Day r1 = da_Day r2 /\ metric_before metric fx r1 r2).

(** Two rows with the same day and the same value of the metric. *)
Definition same_sort_key (fx : DailyAirlineMetricsRow -> cell)
    (r1 r2 : DailyAirlineMetricsRow) : bool :=
  (da_Day r1 =? da_Day r2) && cell_leb (fx r1) (fx r2) && cell_leb (fx r2) (fx r1).

(** The columns of the daily table that hold numbers. *)
Definition numeric_daily_column (metric : string) : bool :=
  bool_decide (metric ∈ ["Day"; "FlightCount"; "AvgDepDelay"; "OnTimeRate"; "CancellationRate"]).

(** The number of distinct days of a list of rows. *)
Definition distinct_days (rows : list DailyAirlineMetricsRow) : nat :=
  size (list_to_set (map da_Day rows) : gset Z).



(** ** Sample tables *)

Definition sample_state : list StateMetricsRow :=
  [ {| sm_StateCode := "CA"; sm_StateName := "California"; sm_AvgDepDelay := (25 # 2)%Q;
       sm_CancellationRate := (3 # 2)%Q; sm_FlightCount := 1200 |};
    {| sm_StateCode := "NY"; sm_StateName := "New York"; sm_AvgDepDelay := 18%Q;
       sm_CancellationRate := (5 # 2)%Q; sm_FlightCount := 900 |} ].

Definition sample_daily : list DailyAirlineMetricsRow :=
  [ {| da_Day := 2; da_Airline := "AA"; da_FlightCount := 120; da_AvgDepDelay := (25 # 2)%Q;
       da_OnTimeRate := 80%Q; da_CancellationRate := 1%Q |};
    {| da_Day := 1; da_Airline := "DL"; da_FlightCount := 90; da_AvgDepDelay := (-3)%Q;
       da_OnTimeRate := 91%Q; da_CancellationRate := (1 # 2)%Q |};
    {| da_Day := 1; da_Airline := "AA"; da_FlightCount := 90; da_AvgDepDelay := 7%Q;
       da_OnTimeRate := 85%Q; da_CancellationRate := 2%Q |};
    {| da_Day := 2; da_Airline := "DL"; da_FlightCount := 95; da_AvgDepDelay := 4%Q;
       da_OnTimeRate := 88%Q; da_CancellationRate := 0%Q |};
    {| da_Day := 1; da_Airline := "UA"; da_FlightCount := 60; da_AvgDepDelay := (-1)%Q;
       da_OnTimeRate := 93%Q; da_CancellationRate := (1 # 4)%Q |} ].

(** Early departures only: no positive delay. *)
Definition sample_early : list DailyAirlineMetricsRow :=
  [ {| da_Day := 1; da_Airline := "AA"; da_FlightCount := 10; da_AvgDepDelay := (-4)%Q;
       da_OnTimeRate := 99%Q; da_CancellationRate := 0%Q |};
    {| da_Day := 2; da_Airline := "AA"; da_FlightCount := 12; da_AvgDepDelay := (-2)%Q;
       da_OnTimeRate := 98%Q; da_CancellationRate := 0%Q |} ].

(** Delays below 0 and above 40. *)
Definition sample_hierarchy : list HierarchyRow :=
  [ {| hr_State := "CA"; hr_City := "Los Angeles"; hr_Airport := "LAX"; hr_Airline := "AA";
       hr_FlightCount := 300; hr_AvgDelay := (-5)%Q |};
    {| hr_State := "CA"; hr_City := "Los Angeles"; hr_Airport := "LAX"; hr_Airline := "DL";
       hr_FlightCount := 200; hr_AvgDelay := 75%Q |};
    {| hr_State := "NY"; hr_City := "New York"; hr_Airport := "JFK"; hr_Airline := "AA";
       hr_FlightCount := 100; hr_AvgDelay := 12%Q |} ].

Definition sample_store : store :=
  [StateMetrics sample_state; DailyAirlineMetrics sample_daily;
   HierarchyData sample_hierarchy; DailyAirlineMetrics sample_early;
   DailyAirlineMetrics []].

(** A check that accepts every hierarchy. *)
Definition accept_all (rows : list HierarchyRow) : option exn := None.

(** The figure of a result, for statements about a result known to be a
    figure. *)
Definition figure_of (r : result Figure) : Figure :=
  match r with
  | Ok fig => fig
  | Raise _ => {| data := []; layout := empty_layout; frames := [] |}
  end.

(** ** Notions used in the further properties *)

(** A table of another kind than the daily airline table. *)
Definition is_daily (df : DataFrame) : bool :=
  match df with DailyAirlineMetrics _ => true | _ => false end.

Definition is_state (df : DataFrame) : bool :=
  match df with StateMetrics _ => true | _ => false end.

Definition is_hierarchy (df : DataFrame) : bool :=
  match df with HierarchyData _ => true | _ => false end.

Definition raises {A : Type} (r : result A) : Prop := exists e, r = Raise e.

(** The rows of a bar trace (its custom data), its name and its colour. *)
Definition trace_rows (t : Trace) : list DailyAirlineMetricsRow :=
  match t with
  | Bar _ _ _ _ rows _ => rows
  | _ => []
  end.

Definition trace_name (t : Trace) : string :=
  match t with
  | Bar name _ _ _ _ _ => name
  | _ => ""
  end.

Definition trace_color (t : Trace) : string :=
  match t with
  | Bar _ _ _ color _ _ => color
  | _ => ""
  end.

Definition trace_hover (t : Trace) : hover :=
  match t with
  | Choropleth _ _ _ h => h
  | Scattergeo _ _ => PxHover
  | Bar _ _ _ _ _ h => h
  | Sunburst _ h _ => h
  end.

(** All rows drawn in a frame. *)
Definition frame_rows (f : Frame) : list DailyAirlineMetricsRow :=
  concat (map trace_rows (frame_data f)).


(** The rows the animated chart is built from: filtered, then sorted. *)
Definition animated_rows (fx : DailyAirlineMetricsRow -> cell) (metric : string)
    (sel : option (list string)) (rows : list DailyAirlineMetricsRow)
  : list DailyAirlineMetricsRow :=
  stable_sort (lex_leb (animated_keys fx metric)) (select_airlines sel rows).

(** The palette colour of the airline of rank [i]. *)
Definition palette_color (i : nat) : string :=
  default "" (chart_palette !! (i mod length chart_palette)%nat).

(** ** The dashboard (src/app.py)

    The page is a script: it reads the user's choices from widgets and
    shows each chart inside [try ... except Exception as e: st.error(...)].
    The choices are arguments here; what a section shows is a chart or
    the error message with the exception caught. *)

Inductive shown : Type :=
  | Chart (fig : Figure)
  | ErrorMessage (text : string) (e : exn).

(** [try: fig = ...; st.plotly_chart(fig, ...) except Exception as e:
    st.error(f"<text>{e}")]. *)
Definition try_chart (text : string) (m : M Figure) : M shown := fun σ =>
  match m σ with
  | (Ok fig, σ') => (Ok (Chart fig), σ')
  | (Raise e, σ') => (Ok (ErrorMessage text e), σ')
  end.

(** The options of the two metric select boxes (lines 318 and 370). *)
Definition map_metric_options : list string :=
  ["AvgDepDelay"; "CancellationRate"; "FlightCount"].

Definition animation_metric_options : list string :=
  ["FlightCount"; "AvgDepDelay"; "OnTimeRate"; "CancellationRate"].

(** [sorted(daily_airline_metrics['Airline'].unique().tolist())]
    (line 358), on the rows of the daily table. *)
Definition all_airlines (rows : list DailyAirlineMetricsRow) : list string :=
  stable_sort String.leb (unique (map da_Airline rows)).

(** [sorted(hierarchy_data['State'].unique().tolist())] (line 412). *)
Definition all_states (rows : list HierarchyRow) : list string :=
  stable_sort String.leb (unique (map hr_State rows)).



(** [selected_airlines if selected_airlines else None] (line 392). *)
Definition airlines_argument (selected_airlines : list string) : option (list string) :=
  match selected_airlines with
  | [] => None
  | _ :: _ => Some selected_airlines
  end.

(** The three chart sections (lines 339-343, 388-398, 430-436). *)
Definition show_map (state_metrics : loc) (map_metric : string) : M shown :=
  try_chart "Error creating map: " (create_choropleth state_metrics map_metric).

Definition show_animation (daily_airline_metrics : loc) (selected_airlines : list string)
    (animation_metric : string) : M shown :=
  try_chart "Error creating animated chart: "
    (create_animated_airline_chart daily_airline_metrics animation_metric
       (airlines_argument selected_airlines)).


(** Strictly increasing strings. *)
Definition string_lt (s t : string) : Prop := String.leb s t = true /\ s <> t.

(** *** The KPI cards (lines 245-285)

    [summary_stats.to_dict('records')] is a list of dicts, one per row of
    the summary table, from column name to number. *)

(** [int(x)]: truncation towards zero. *)
Definition py_int (q : Q) : Z := Z.quot (Qnum q) (Z.pos (Qden q)).

Record KpiCards : Type := {
  avg_delay : Q;
  cancel_rate : Q;
  total_cancelled : Z;
  total_flights : Z;
  on_time_rate : Q;
  operational_flights : Z
}.

Definition kpi_cards (summary_stats : list (gmap string Q)) : result KpiCards :=
  match summary_stats with
  | [] => Raise IndexError
  | stats :: _ =>
      let avg_delay := dict_get stats "AvgDepartureDelay" 0%Q in
      let cancel_rate := dict_get stats "CancellationRate" 0%Q in
      let total_cancelled := py_int (dict_get stats "TotalCancelled" 0%Q) in
      let total_flights := py_int (dict_get stats "TotalFlights" 0%Q) in
      Ok {| avg_delay := avg_delay; cancel_rate := cancel_rate;
            total_cancelled := total_cancelled; total_flights := total_flights;
            on_time_rate := (100 - cancel_rate - (avg_delay / 100 * 10))%Q;
            operational_flights := total_flights - total_cancelled |}
  end.

(** A summary row without the column TotalCancelled. *)
Definition sample_summary : list (gmap string Q) :=
  [ <["AvgDepartureDelay" := (25 # 2)%Q]>
    (<["CancellationRate" := (3 # 2)%Q]>
    (<["TotalFlights" := 570000%Q]> ∅)) ].
(** * Properties *)

(** ** Stable sorting *)

Section StableSort.
Context {A : Type} (leb : A -> A -> bool).
Hypothesis leb_total : forall x y, leb x y = true \/ leb y x = true.
Hypothesis leb_trans : forall x y z, leb x y = true -> leb y z = true -> leb x z = true.

Let le (x y : A) : Prop := leb x y = true.

Lemma insert_sorted_perm x l : Permutation (x :: l) (insert_sorted leb x l).
Proof.
  induction l as [|y l IH]; simpl; [reflexivity|].
  destruct (leb x y); [reflexivity|].
  rewrite perm_swap. by constructor.
Qed.

Lemma stable_sort_perm l : Permutation l (stable_sort leb l).
Proof.
  induction l as [|x l IH]; simpl; [constructor|].
  rewrite <- insert_sorted_perm. by constructor.
Qed.

Lemma insert_sorted_sorted x l :
  StronglySorted le l -> StronglySorted le (insert_sorted leb x l).
Proof.
  induction 1 as [|y l Hl IH Hy]; simpl.
  - repeat constructor.
  - destruct (leb x y) eqn:Hxy.
    + constructor; [by constructor|].
      constructor; [exact Hxy|].
      eapply Forall_impl; [exact Hy|]. intros z Hz. by eapply leb_trans.
    + constructor; [exact IH|].
      rewrite <- insert_sorted_perm. constructor; [|exact Hy].
      destruct (leb_total x y) as [H|H]; [congruence|exact H].
Qed.

Lemma stable_sort_sorted l : StronglySorted le (stable_sort leb l).
Proof.
  induction l as [|x l IH]; simpl; [constructor|]. by apply insert_sorted_sorted.
Qed.

Lemma same_key_below x a y :
  same_key leb x a = true -> leb a y = false -> same_key leb x y = false.
Proof.
  unfold same_key. intros Hxa Hay.
  apply andb_true_iff in Hxa as [Hxa Hax].
  destruct (leb x y) eqn:Hxy; [|done]. simpl.
  destruct (leb y x) eqn:Hyx; [|done].
  rewrite (leb_trans a x y Hax Hxy) in Hay. discriminate.
Qed.

Lemma insert_sorted_filter x a l :
  List.filter (same_key leb x) (insert_sorted leb a l) =
  if same_key leb x a then a :: List.filter (same_key leb x) l else List.filter (same_key leb x) l.
Proof.
  induction l as [|y l IH]; simpl; [done|].
  destruct (leb a y) eqn:Hay; simpl; [done|].
  rewrite IH. destruct (same_key leb x a) eqn:Hxa; [|done].
  by rewrite (same_key_below x a y Hxa Hay).
Qed.

(** Stability: the elements of one key appear in their input order. *)
Lemma stable_sort_stable x l :
  List.filter (same_key leb x) (stable_sort leb l) = List.filter (same_key leb x) l.
Proof.
  induction l as [|a l IH]; simpl; [done|].
  rewrite insert_sorted_filter, IH. by destruct (same_key leb x a).
Qed.
End StableSort.

(** ** The order on cells and rows *)

Lemma string_compare_refl s : String.compare s s = Eq.
Proof.
  induction s as [|a s IH]; simpl; [done|].
  unfold Ascii.compare. by rewrite N.compare_refl.
Qed.

Lemma string_compare_lt_trans s t u :
  String.compare s t = Lt -> String.compare t u = Lt -> String.compare s u = Lt.
Proof.
  revert t u. induction s as [|a s IH]; intros [|b t] [|c u]; simpl; try done.
  unfold Ascii.compare.
  destruct (N.compare_spec (Ascii.N_of_ascii a) (Ascii.N_of_ascii b)) as [Hab|Hab|Hab]; try done;
    destruct (N.compare_spec (Ascii.N_of_ascii b) (Ascii.N_of_ascii c)) as [Hbc|Hbc|Hbc]; try done;
    intros H1 H2.
  - rewrite Hab, Hbc, N.compare_refl. by eapply IH.
  - rewrite Hab. by apply N.compare_lt_iff in Hbc as ->.
  - rewrite <- Hbc. by apply N.compare_lt_iff in Hab as ->.
  - assert (Ascii.N_of_ascii a < Ascii.N_of_ascii c)%N as Hac by lia.
    by apply N.compare_lt_iff in Hac as ->.
Qed.

Lemma string_leb_trans s t u :
  String.leb s t = true -> String.leb t u = true -> String.leb s u = true.
Proof.
  unfold String.leb.
  destruct (String.compare s t) eqn:Hst; try done;
    destruct (String.compare t u) eqn:Htu; try done; intros _ _.
  - apply String.compare_eq_iff in Hst, Htu. subst. by rewrite string_compare_refl.
  - apply String.compare_eq_iff in Hst. subst. by rewrite Htu.
  - apply String.compare_eq_iff in Htu. subst. by rewrite Hst.
  - by rewrite (string_compare_lt_trans s t u).
Qed.

Lemma cell_leb_total a b : cell_leb a b = true \/ cell_leb b a = true.
Proof.
  destruct a as [x|s], b as [y|t]; simpl; auto.
  - rewrite !Qle_bool_iff. destruct (Qlt_le_dec x y) as [H|H]; [left|right]; auto.
    by apply Qlt_le_weak.
  - apply String.leb_total.
Qed.

Lemma cell_leb_trans a b c :
  cell_leb a b = true -> cell_leb b c = true -> cell_leb a c = true.
Proof.
  destruct a as [x|s], b as [y|t], c as [z|u]; simpl; try done.
  - rewrite !Qle_bool_iff. apply Qle_trans.
  - apply string_leb_trans.
Qed.

Lemma key_leb_total {R : Type} (k : (R -> cell) * bool) r1 r2 :
  key_leb k r1 r2 = true \/ key_leb k r2 r1 = true.
Proof. unfold key_leb. destruct (snd k); apply cell_leb_total. Qed.

Lemma key_leb_trans {R : Type} (k : (R -> cell) * bool) r1 r2 r3 :
  key_leb k r1 r2 = true -> key_leb k r2 r3 = true -> key_leb k r1 r3 = true.
Proof.
  unfold key_leb. destruct (snd k); [apply cell_leb_trans|].
  intros H1 H2. by eapply cell_leb_trans.
Qed.

Lemma lex_leb_total {R : Type} (keys : list ((R -> cell) * bool)) r1 r2 :
  lex_leb keys r1 r2 = true \/ lex_leb keys r2 r1 = true.
Proof.
  induction keys as [|k ks IH]; simpl; [by left|].
  destruct (key_leb k r1 r2) eqn:H12, (key_leb k r2 r1) eqn:H21; auto.
  destruct (key_leb_total k r1 r2); congruence.
Qed.

Lemma lex_leb_trans {R : Type} (keys : list ((R -> cell) * bool)) r1 r2 r3 :
  lex_leb keys r1 r2 = true -> lex_leb keys r2 r3 = true -> lex_leb keys r1 r3 = true.
Proof.
  induction keys as [|k ks IH]; simpl; [done|].
  destruct (key_leb k r1 r2) eqn:H12; [|done].
  destruct (key_leb k r2 r3) eqn:H23; [|by destruct (key_leb k r2 r1)].
  rewrite (key_leb_trans k r1 r2 r3 H12 H23).
  destruct (key_leb k r2 r1) eqn:H21, (key_leb k r3 r2) eqn:H32; intros Ha Hb.
  - rewrite (key_leb_trans k r3 r2 r1 H32 H21). by apply IH.
  - destruct (key_leb k r3 r1) eqn:H31; [|done].
    by rewrite (key_leb_trans k r3 r1 r2 H31 H12) in H32.
  - destruct (key_leb k r3 r1) eqn:H31; [|done].
    by rewrite (key_leb_trans k r2 r3 r1 H23 H31) in H21.
  - destruct (key_leb k r3 r1) eqn:H31; [|done].
    by rewrite (key_leb_trans k r2 r3 r1 H23 H31) in H21.
Qed.

(** ** The store is only extended *)

Lemma preserves_ret {A : Type} (a : A) : preserves (mret a).
Proof. intros σ. reflexivity. Qed.

Lemma preserves_lift {A : Type} (r : result A) : preserves (lift r).
Proof. intros σ. reflexivity. Qed.

Lemma preserves_load l : preserves (load l).
Proof. intros σ. unfold load. by destruct (σ !! l). Qed.

Lemma preserves_alloc df : preserves (alloc df).
Proof. intros σ. by apply prefix_app_r. Qed.

Lemma preserves_bind {A B : Type} (m : M A) (f : A -> M B) :
  preserves m -> (forall a, preserves (f a)) -> preserves (m ≫= f).
Proof.
  intros Hm Hf σ. unfold mbind, M_bind.
  specialize (Hm σ). destruct (m σ) as [[a|e] σ']; simpl in *; [|done].
  etrans; [exact Hm|apply Hf].
Qed.


Create HintDb store discriminated.
#[global] Hint Resolve preserves_ret preserves_lift preserves_load preserves_alloc : store.

Ltac preserves_step :=
  first
    [ apply preserves_bind; [|intros ?]
    | apply preserves_ret | apply preserves_lift
    | apply preserves_load | apply preserves_alloc ].

Lemma preserves_df_copy l : preserves (df_copy l).
Proof. unfold df_copy. repeat preserves_step. Qed.

Lemma preserves_df_getitem l c : preserves (df_getitem l c).
Proof. unfold df_getitem. repeat preserves_step. Qed.

Lemma preserves_df_getitem_mask l mask : preserves (df_getitem_mask l mask).
Proof. unfold df_getitem_mask. repeat preserves_step. Qed.

Lemma preserves_df_sort_values l by_ ascending : preserves (df_sort_values l by_ ascending).
Proof. unfold df_sort_values. repeat preserves_step. Qed.

#[global] Hint Resolve preserves_df_copy preserves_df_getitem preserves_df_getitem_mask
  preserves_df_sort_values : store.




(** ** Running the generators on a table *)

Lemma bind_run {A B : Type} (m : M A) (f : A -> M B) σ :
  (m ≫= f) σ =
  match m σ with
  | (Ok a, σ') => f a σ'
  | (Raise e, σ') => (Raise e, σ')
  end.
Proof. reflexivity. Qed.

Lemma lookup_snoc (σ : store) df : (σ ++ [df]) !! length σ = Some df.
Proof. by apply list_lookup_middle. Qed.

Lemma load_run (σ : store) l df : σ !! l = Some df -> load l σ = (Ok df, σ).
Proof. intros H. unfold load. by rewrite H. Qed.

Lemma df_copy_run (σ : store) l df :
  σ !! l = Some df -> df_copy l σ = (Ok (length σ), σ ++ [df]).
Proof. intros H. unfold df_copy. by rewrite bind_run, (load_run _ _ _ H). Qed.

Lemma df_getitem_run (σ : store) l df c :
  σ !! l = Some df -> df_getitem l c σ = (getitem df c, σ).
Proof. intros H. unfold df_getitem. by rewrite bind_run, (load_run _ _ _ H). Qed.

Lemma df_getitem_mask_run (σ : store) l df mask :
  σ !! l = Some df ->
  df_getitem_mask l mask σ = (Ok (length σ), σ ++ [getitem_mask df mask]).
Proof. intros H. unfold df_getitem_mask. by rewrite bind_run, (load_run _ _ _ H). Qed.

Lemma df_sort_values_run (σ : store) l df by_ ascending :
  σ !! l = Some df ->
  df_sort_values l by_ ascending σ =
  match sort_values df by_ ascending with
  | Ok sorted => (Ok (length σ), σ ++ [sorted])
  | Raise e => (Raise e, σ)
  end.
Proof.
  intros H. unfold df_sort_values. rewrite bind_run, (load_run _ _ _ H), bind_run.
  unfold lift. by destruct (sort_values df by_ ascending).
Qed.

Lemma mask_rows_map {R : Type} (p : R -> bool) (rows : list R) :
  mask_rows rows (map p rows) = List.filter p rows.
Proof. induction rows as [|r rows IH]; simpl; [done|]. by rewrite IH. Qed.

Lemma daily_column_Day : daily_column "Day" = Some day_cell.
Proof. reflexivity. Qed.

Lemma daily_sort_values rows metric fx b :
  daily_column metric = Some fx ->
  sort_values (DailyAirlineMetrics rows) ["Day"; metric] [true; b] =
  Ok (DailyAirlineMetrics (stable_sort (lex_leb [(day_cell, true); (fx, b)]) rows)).
Proof.
  intros Hfx. unfold sort_values, frame_sort_values, sort_keys.
  by rewrite daily_column_Day, Hfx.
Qed.

Lemma daily_sort_values_missing rows metric b :
  daily_column metric = None ->
  sort_values (DailyAirlineMetrics rows) ["Day"; metric] [true; b] = Raise (KeyError metric).
Proof.
  intros Hfx. unfold sort_values, frame_sort_values, sort_keys.
  by rewrite daily_column_Day, Hfx.
Qed.

(** The airline filter leaves a daily table whose rows are
    [select_airlines]. *)
Lemma filter_step_run (σ : store) l rows sel :
  σ !! l = Some (DailyAirlineMetrics rows) ->
  exists l' σ',
    (if truthy_list sel && (0 <? py_len sel)
     then col ← df_getitem l "Airline";
          df_getitem_mask l (isin col (default [] sel))
     else mret l) σ = (Ok l', σ') /\
    σ' !! l' = Some (DailyAirlineMetrics (select_airlines sel rows)).
Proof.
  intros H. unfold select_airlines.
  destruct (truthy_list sel && (0 <? py_len sel)).
  - rewrite bind_run, (df_getitem_run _ _ _ _ H). simpl.
    rewrite (df_getitem_mask_run _ _ _ _ H). do 2 eexists. split; [done|].
    rewrite lookup_snoc. simpl. do 2 f_equal.
    unfold isin. rewrite map_map. apply mask_rows_map.
  - by exists l, σ.
Qed.

Lemma create_animated_airline_chart_run (σ : store) l rows metric sel :
  σ !! l = Some (DailyAirlineMetrics rows) ->
  (create_animated_airline_chart l metric sel σ).1 = animated_chart_of_rows rows metric sel.
Proof.
  intros H. unfold create_animated_airline_chart, animated_chart_of_rows.
  rewrite bind_run, (df_copy_run _ _ _ H).
  destruct (filter_step_run (σ ++ [DailyAirlineMetrics rows]) (length σ) rows sel
              (lookup_snoc _ _)) as (l' & σ' & Hrun & Hl').
  rewrite bind_run, Hrun.
  rewrite bind_run, (df_getitem_run _ _ _ _ Hl').
  unfold getitem, frame_getitem.
  destruct (daily_column metric) as [fx|] eqn:Hfx; [|done].
  rewrite bind_run. unfold lift at 1.
  destruct (x_range_max _) as [x_max|e]; [|done].
  rewrite bind_run, (df_sort_values_run _ _ _ _ _ Hl'), (daily_sort_values _ _ _ _ Hfx).
  rewrite bind_run, (load_run _ _ _ (lookup_snoc _ _)).
  rewrite bind_run. unfold lift at 1. unfold animated_keys.
  destruct (px_bar _ metric) as [fig|e]; [|done].
  unfold finish_animated.
  rewrite bind_run. unfold lift at 1.
  destruct (set_frame_duration 400 _) as [fig1|e]; [|done].
  rewrite bind_run. unfold lift at 1.
  by destruct (set_transition_duration 150 fig1) as [fig2|e].
Qed.

Lemma state_getitem_StateCode rows :
  getitem (StateMetrics rows) "StateCode" = Ok (map (fun r => Str (sm_StateCode r)) rows).
Proof. reflexivity. Qed.

Lemma create_choropleth_run (σ : store) l rows metric :
  σ !! l = Some (StateMetrics rows) ->
  (create_choropleth l metric σ).1 = choropleth_of_rows rows metric.
Proof.
  intros H. unfold create_choropleth, choropleth_of_rows.
  rewrite bind_run, (load_run _ _ _ H).
  rewrite bind_run. unfold lift at 1.
  destruct (px_choropleth _ metric _) as [fig|e]; [|done].
  rewrite bind_run, (df_getitem_run _ _ _ _ H), state_getitem_StateCode.
  rewrite bind_run, (load_run _ _ _ H).
  rewrite bind_run. unfold lift at 1. unfold apply_map_label.
  by destruct (map_result _ rows) as [text|e].
Qed.

Lemma hierarchy_getitem_State rows :
  getitem (HierarchyData rows) "State" = Ok (map (fun r => Str (hr_State r)) rows).
Proof. reflexivity. Qed.

Lemma state_step_run (σ : store) l rows st :
  σ !! l = Some (HierarchyData rows) ->
  exists l' σ',
    (if truthy_str st
     then col ← df_getitem l "State";
          df_getitem_mask l (series_eq col (default "" st))
     else mret l) σ = (Ok l', σ') /\
    σ' !! l' = Some (HierarchyData (select_state st rows)).
Proof.
  intros H. unfold select_state.
  destruct (truthy_str st).
  - rewrite bind_run, (df_getitem_run _ _ _ _ H), hierarchy_getitem_State.
    rewrite (df_getitem_mask_run _ _ _ _ H). do 2 eexists. split; [done|].
    rewrite lookup_snoc. unfold getitem_mask. do 2 f_equal.
    unfold series_eq. rewrite map_map. apply mask_rows_map.
  - by exists l, σ.
Qed.

Lemma create_sunburst_run check (σ : store) l rows st :
  σ !! l = Some (HierarchyData rows) ->
  (create_sunburst check l st σ).1 = sunburst_of_rows check rows st.
Proof.
  intros H. unfold create_sunburst, sunburst_of_rows.
  destruct (state_step_run σ l rows st H) as (l' & σ' & Hrun & Hl').
  rewrite bind_run, Hrun.
  rewrite bind_run, (load_run _ _ _ Hl').
  rewrite bind_run. unfold lift at 1.
  by destruct (px_sunburst check _ _ _) as [fig|e].
Qed.

(** ** Distinct values *)

Lemma unique_from_elem {A : Type} `{EqDecision A} (seen l : list A) x :
  x ∈ unique_from seen l <-> x ∈ l /\ x ∉ seen.
Proof.
  revert seen. induction l as [|y l IH]; intros seen; simpl.
  - set_solver.
  - case_bool_decide as Hy.
    + rewrite IH. set_solver.
    + rewrite elem_of_cons, IH. destruct (decide (x = y)); set_solver.
Qed.

Lemma unique_elem {A : Type} `{EqDecision A} (l : list A) x : x ∈ unique l <-> x ∈ l.
Proof.
  unfold unique. rewrite unique_from_elem. split; [by intros [? _]|].
  intros Hx. split; [done|]. by intros ?%elem_of_nil.
Qed.

Lemma unique_from_NoDup {A : Type} `{EqDecision A} (seen l : list A) :
  NoDup (unique_from seen l).
Proof.
  revert seen. induction l as [|y l IH]; intros seen; simpl; [constructor|].
  case_bool_decide; [apply IH|]. constructor; [|apply IH].
  rewrite unique_from_elem. intros [_ Hn]. apply Hn. by left.
Qed.

Lemma unique_NoDup {A : Type} `{EqDecision A} (l : list A) : NoDup (unique l).
Proof. apply unique_from_NoDup. Qed.

Lemma unique_from_sublist {A : Type} `{EqDecision A} (seen l : list A) :
  unique_from seen l `sublist_of` l.
Proof.
  revert seen. induction l as [|y l IH]; intros seen; simpl; [constructor|].
  case_bool_decide; [by apply sublist_cons|by apply sublist_skip].
Qed.

(** The number of distinct values of a list of days. *)
Lemma unique_length (l : list Z) : length (unique l) = size (list_to_set l : gset Z).
Proof.
  rewrite <- (size_list_to_set (C:=gset Z) (unique l)) by apply unique_NoDup.
  f_equal. apply set_eq. intros x. by rewrite !elem_of_list_to_set, unique_elem.
Qed.

(** ** Sorted lists *)

Lemma StronglySorted_weaken {A : Type} (R1 R2 : A -> A -> Prop) l :
  (forall x y, R1 x y -> R2 x y) -> StronglySorted R1 l -> StronglySorted R2 l.
Proof.
  intros HR. induction 1 as [|x l Hl IH Hx]; constructor; [done|].
  eapply Forall_impl; [exact Hx|]. intros y. apply HR.
Qed.

Lemma StronglySorted_sublist {A : Type} (R : A -> A -> Prop) l1 l2 :
  l1 `sublist_of` l2 -> StronglySorted R l2 -> StronglySorted R l1.
Proof.
  induction 1 as [|x l1 l2 Hsub IH|x l1 l2 Hsub IH]; intros Hs; [done| |].
  - apply StronglySorted_inv in Hs as [Hs Hx]. constructor; [by apply IH|].
    apply Forall_forall. intros y Hy. rewrite Forall_forall in Hx.
    apply Hx. eapply elem_of_sublist; [|exact Hsub]. done.
  - apply StronglySorted_inv in Hs as [Hs _]. by apply IH.
Qed.

Lemma StronglySorted_NoDup_lt (l : list Z) :
  StronglySorted Z.le l -> NoDup l -> StronglySorted Z.lt l.
Proof.
  induction 1 as [|x l Hl IH Hx]; intros Hnd; [constructor|].
  apply NoDup_cons in Hnd as [Hnx Hnd]. constructor; [by apply IH|].
  apply Forall_forall. intros y Hy. rewrite Forall_forall in Hx.
  specialize (Hx y Hy). assert (x <> y) by (by intros ->). lia.
Qed.

Lemma StronglySorted_map {A B : Type} (R : A -> A -> Prop) (S : B -> B -> Prop)
    (f : A -> B) l :
  (forall x y, R x y -> S (f x) (f y)) -> StronglySorted R l -> StronglySorted S (map f l).
Proof.
  intros HR. induction 1 as [|x l Hl IH Hx]; simpl; constructor; [done|].
  apply Forall_forall. intros y [z [-> Hz]]%list_elem_of_fmap.
  rewrite Forall_forall in Hx. by apply HR, Hx.
Qed.

(** ** The sort order of the animated chart *)

Lemma day_key_leb r1 r2 :
  key_leb (day_cell, true) r1 r2 = (da_Day r1 <=? da_Day r2).
Proof.
  unfold key_leb, day_cell. simpl.
  destruct (Z.leb_spec (da_Day r1) (da_Day r2)) as [H|H].
  - apply Qle_bool_iff. by rewrite <- Zle_Qle.
  - destruct (Qle_bool _ _) eqn:E; [|done].
    apply Qle_bool_iff in E. rewrite <- Zle_Qle in E. lia.
Qed.

Lemma metric_key_leb metric fx r1 r2 :
  key_leb (fx, negb (ascending_metric metric)) r1 r2 = true <-> metric_before metric fx r1 r2.
Proof. unfold key_leb, metric_before. simpl. by destruct (ascending_metric metric). Qed.

Lemma animated_lex_leb metric fx r1 r2 :
  lex_leb (animated_keys fx metric) r1 r2 = true <-> day_metric_le metric fx r1 r2.
Proof.
  unfold animated_keys, day_metric_le. cbn [lex_leb].
  rewrite !day_key_leb, <- metric_key_leb.
  set (k := (fx, negb (ascending_metric metric))).
  destruct (Z.leb_spec (da_Day r1) (da_Day r2)) as [H12|H12];
    destruct (Z.leb_spec (da_Day r2) (da_Day r1)) as [H21|H21];
    destruct (key_leb k r1 r2) eqn:E1; destruct (key_leb k r2 r1) eqn:E2;
    split; try done; try (intros _; by (left; lia)); try (intros _; right; split; [lia|done]);
    intros [?|[? ?]]; try lia; try done.
Qed.

Lemma animated_same_key metric fx r1 r2 :
  same_key (lex_leb (animated_keys fx metric)) r1 r2 = same_sort_key fx r1 r2.
Proof.
  unfold same_key, same_sort_key, animated_keys. cbn [lex_leb].
  rewrite !day_key_leb. unfold key_leb. simpl.
  destruct (Z.leb_spec (da_Day r1) (da_Day r2)) as [H12|H12];
    destruct (Z.leb_spec (da_Day r2) (da_Day r1)) as [H21|H21];
    destruct (Z.eqb_spec (da_Day r1) (da_Day r2)) as [He|He]; try lia; simpl;
    try done; try by rewrite andb_false_r.
  destruct (ascending_metric metric); simpl;
    by destruct (cell_leb (fx r1) (fx r2)), (cell_leb (fx r2) (fx r1)).
Qed.

Lemma animated_sorted_rows metric fx rows :
  let sorted := stable_sort (lex_leb (animated_keys fx metric)) rows in
  Permutation rows sorted /\
  StronglySorted (day_metric_le metric fx) sorted /\
  forall r, List.filter (same_sort_key fx r) sorted = List.filter (same_sort_key fx r) rows.
Proof.
  intros sorted. split; [apply stable_sort_perm|]. split.
  - eapply StronglySorted_weaken;
      [|apply (stable_sort_sorted _ (lex_leb_total _) (lex_leb_trans _))].
    intros r1 r2. apply animated_lex_leb.
  - intros r.
    transitivity (List.filter (same_key (lex_leb (animated_keys fx metric)) r) sorted).
    { apply List.filter_ext. intros x. by rewrite animated_same_key. }
    unfold sorted. rewrite (stable_sort_stable _ (lex_leb_trans _)).
    apply List.filter_ext. intros x. apply animated_same_key.
Qed.

(** ** The steps of the animated chart *)

Lemma finish_animated_inv config x fig fig' :
  finish_animated config x fig = Ok fig' ->
  updatemenus (layout fig) <> [] /\
  frames fig' = frames fig /\
  title_text (layout fig') =
    Some (an_title config +:+ "<br><sub>" +:+ an_subtitle config +:+ "</sub>") /\
  xaxis_title (layout fig') = Some (an_x_label config) /\
  xaxis_range (layout fig') = Some (0%Q, x) /\
  yaxis_categoryorder (layout fig') = Some "total ascending".
Proof.
  unfold finish_animated, set_frame_duration, set_transition_duration. simpl.
  destruct (updatemenus (layout fig)) as [|m ms]; [done|].
  destruct (buttons m) as [|b bs]; [done|]. simpl.
  intros [= <-]. unfold style_slider. simpl.
  by destruct (sliders (layout fig)).
Qed.

Lemma finish_animated_ok config x fig m ms b bs :
  updatemenus (layout fig) = m :: ms -> buttons m = b :: bs ->
  exists fig', finish_animated config x fig = Ok fig'.
Proof.
  intros Hm Hb. unfold finish_animated, set_frame_duration, set_transition_duration.
  simpl. rewrite Hm, Hb. simpl. by eexists.
Qed.

Lemma finish_animated_no_menu config x fig :
  updatemenus (layout fig) = [] -> finish_animated config x fig = Raise IndexError.
Proof.
  intros Hm. unfold finish_animated, set_frame_duration. simpl. by rewrite Hm.
Qed.

Lemma days_of_sorted (rows sorted : list DailyAirlineMetricsRow) :
  Permutation rows sorted ->
  length (unique (map da_Day sorted)) = distinct_days rows.
Proof.
  intros Hp. rewrite unique_length. unfold distinct_days. f_equal.
  apply set_eq. intros d. rewrite !elem_of_list_to_set.
  by rewrite (Permutation_map da_Day Hp).
Qed.

Lemma animated_chart_inv rows metric sel fig :
  animated_chart_of_rows rows metric sel = Ok fig ->
  exists fx x_max,
    daily_column metric = Some fx /\
    x_range_max (series_max (map fx (select_airlines sel rows))) = Ok x_max /\
    (1 < distinct_days (select_airlines sel rows))%nat /\
    frames fig =
      map (bar_frame fx (stable_sort (lex_leb (animated_keys fx metric))
                           (select_airlines sel rows)))
        (unique (map da_Day (stable_sort (lex_leb (animated_keys fx metric))
                               (select_airlines sel rows)))) /\
    title_text (layout fig) =
      Some (an_title (dict_get animated_metric_config metric animated_FlightCount) +:+
            "<br><sub>" +:+
            an_subtitle (dict_get animated_metric_config metric animated_FlightCount) +:+
            "</sub>") /\
    xaxis_title (layout fig) =
      Some (an_x_label (dict_get animated_metric_config metric animated_FlightCount)) /\
    xaxis_range (layout fig) = Some (0%Q, x_max) /\
    yaxis_categoryorder (layout fig) = Some "total ascending".
Proof.
  unfold animated_chart_of_rows.
  destruct (daily_column metric) as [fx|] eqn:Hfx; [|done].
  destruct (x_range_max _) as [x_max|e] eqn:Hx; [|done].
  set (used := select_airlines sel rows). set (keys := animated_keys fx metric).
  unfold px_bar. rewrite Hfx.
  intros (Hmenu & Hframes & Htitle & Hxt & Hxr & Hy)%finish_animated_inv.
  exists fx, x_max. simpl in Hmenu, Hframes.
  rewrite length_map in Hmenu, Hframes.
  rewrite (days_of_sorted used) in Hmenu, Hframes by apply stable_sort_perm.
  destruct (Z.ltb_spec 1 (Z.of_nat (distinct_days used))) as [Hlt|Hge]; [|done].
  repeat split; try done. lia.
Qed.

Lemma animated_chart_few_days rows metric sel :
  (distinct_days (select_airlines sel rows) <= 1)%nat ->
  exists e, animated_chart_of_rows rows metric sel = Raise e.
Proof.
  intros Hd. destruct (animated_chart_of_rows rows metric sel) as [fig|e] eqn:E;
    [|by exists e].
  apply animated_chart_inv in E as (? & ? & _ & _ & Hlt & _). lia.
Qed.

Lemma animated_chart_returns rows metric sel fx x_max :
  daily_column metric = Some fx ->
  x_range_max (series_max (map fx (select_airlines sel rows))) = Ok x_max ->
  (1 < distinct_days (select_airlines sel rows))%nat ->
  exists fig, animated_chart_of_rows rows metric sel = Ok fig.
Proof.
  intros Hfx Hx Hd. unfold animated_chart_of_rows. rewrite Hfx, Hx.
  unfold px_bar. rewrite Hfx.
  eapply finish_animated_ok; simpl.
  - rewrite length_map, (days_of_sorted (select_airlines sel rows))
      by apply stable_sort_perm.
    destruct (Z.ltb_spec 1 (Z.of_nat (distinct_days (select_airlines sel rows))));
      [done|lia].
  - done.
Qed.

(** ** The maximum of a column *)

Lemma fold_cell_max_spec (cs : list cell) (c : cell) :
  fold_left cell_max cs c ∈ c :: cs /\
  forall x, x ∈ c :: cs -> cell_leb x (fold_left cell_max cs c) = true.
Proof.
  revert c. induction cs as [|d cs IH]; intros c; simpl.
  - split; [by left|]. intros x ->%list_elem_of_singleton.
    destruct (cell_leb_total c c); done.
  - destruct (IH (cell_max c d)) as [Hin Hmax]. split.
    + apply elem_of_cons in Hin as [Hin|Hin]; [|by do 2 right].
      rewrite Hin. unfold cell_max. destruct (cell_leb c d); [right|]; by left.
    + assert (cell_leb c (cell_max c d) = true /\ cell_leb d (cell_max c d) = true)
        as [Hc Hd].
      { unfold cell_max. destruct (cell_leb c d) eqn:E.
        - split; [done|]. by destruct (cell_leb_total d d).
        - split; [by destruct (cell_leb_total c c)|].
          destruct (cell_leb_total c d); [congruence|done]. }
      intros x [->|[->|Hx]%elem_of_cons]%elem_of_cons.
      * eapply cell_leb_trans; [exact Hc|]. apply Hmax. by left.
      * eapply cell_leb_trans; [exact Hd|]. apply Hmax. by left.
      * apply Hmax. by right.
Qed.

(** When the bound is computed from a non-empty column, the column holds
    a number that is its maximum and decides the bound. *)
Lemma x_range_max_spec (col : list cell) (hi : Q) :
  x_range_max (series_max col) = Ok hi ->
  (col = [] /\ hi = 100%Q) \/
  (exists q, Num q ∈ col /\ (forall x, x ∈ col -> cell_leb x (Num q) = true) /\
             hi = if negb (Qle_bool q 0) then (q * (11 # 10))%Q else 100%Q).
Proof.
  destruct col as [|c cs]; simpl; [intros [= <-]; by left|].
  destruct (fold_cell_max_spec cs c) as [Hin Hmax].
  destruct (fold_left cell_max cs c) as [q|s]; [|done].
  intros [= <-]. right. by exists q.
Qed.

Lemma numeric_daily_column_spec metric :
  numeric_daily_column metric = true ->
  exists f : DailyAirlineMetricsRow -> Q, daily_column metric = Some (fun r => Num (f r)).
Proof.
  unfold numeric_daily_column. intros H. apply bool_decide_eq_true in H.
  repeat (apply elem_of_cons in H as [->|H]); [| | | | |by apply elem_of_nil in H].
  - by exists (fun r => inject_Z (da_Day r)).
  - by exists (fun r => inject_Z (da_FlightCount r)).
  - by exists da_AvgDepDelay.
  - by exists da_OnTimeRate.
  - by exists da_CancellationRate.
Qed.

Lemma x_range_max_numeric {R : Type} (f : R -> Q) (rows : list R) :
  exists hi, x_range_max (series_max (map (fun r => Num (f r)) rows)) = Ok hi.
Proof.
  destruct rows as [|r rows]; simpl; [by eexists|].
  destruct (fold_cell_max_spec (map (fun r => Num (f r)) rows) (Num (f r))) as [Hin _].
  destruct (fold_left cell_max _ _) as [q|s]; [by eexists|].
  change (Str s ∈ map (fun r => Num (f r)) (r :: rows)) in Hin.
  by apply list_elem_of_fmap in Hin as (? & ? & _).
Qed.

Lemma animated_chart_numeric_returns rows metric sel :
  numeric_daily_column metric = true ->
  (1 < distinct_days (select_airlines sel rows))%nat ->
  exists fig, animated_chart_of_rows rows metric sel = Ok fig.
Proof.
  intros [f Hf]%numeric_daily_column_spec Hd.
  destruct (x_range_max_numeric f (select_airlines sel rows)) as [hi Hhi].
  by eapply animated_chart_returns.
Qed.

(** * The claims *)



(** C8. In every specification returned by
    [create_animated_airline_chart] the number of frames is the number of
    distinct Day values of the rows that remain after the airline filter,
    and the frames are named after these days in increasing order.  The
    generator returns whenever the metric is a numeric column and at
    least two distinct days remain. *)
Theorem animated_frames_by_day (σ : store) (l : loc)
    (rows : list DailyAirlineMetricsRow) (metric : string) (sel : option (list string)) :
  σ !! l = Some (DailyAirlineMetrics rows) ->
  (forall fig, (create_animated_airline_chart l metric sel σ).1 = Ok fig ->
     length (frames fig) = distinct_days (select_airlines sel rows) /\
     exists days,
       map frame_name (frames fig) = map str_of_Z days /\
       StronglySorted Z.lt days /\
       forall d, d ∈ days <-> d ∈ map da_Day (select_airlines sel rows)) /\
  (numeric_daily_column metric = true ->
   (1 < distinct_days (select_airlines sel rows))%nat ->
   exists fig, (create_animated_airline_chart l metric sel σ).1 = Ok fig).
Proof.
  intros Hl. rewrite (create_animated_airline_chart_run _ _ _ _ _ Hl).
  split; [|apply animated_chart_numeric_returns].
  intros fig (fx & x_max & Hfx & Hx & Hd & Hframes & _)%animated_chart_inv.
  set (used := select_airlines sel rows) in *.
  destruct (animated_sorted_rows metric fx used) as (Hperm & Hsorted & _).
  set (sorted := stable_sort (lex_leb (animated_keys fx metric)) used) in *.
  rewrite Hframes, length_map. split; [by apply days_of_sorted|].
  exists (unique (map da_Day sorted)). split; [by rewrite map_map|]. split.
  - apply StronglySorted_NoDup_lt; [|apply unique_NoDup].
    eapply StronglySorted_sublist; [apply unique_from_sublist|].
    eapply StronglySorted_map; [|exact Hsorted].
    intros r1 r2 [H|[H _]]; lia.
  - intros d. rewrite unique_elem. by rewrite (Permutation_map da_Day Hperm).
Qed.

Lemma animated_frames_by_day_witness :
  sample_store !! 1%nat = Some (DailyAirlineMetrics sample_daily) /\
  (forall fig, (create_animated_airline_chart 1%nat "AvgDepDelay" (Some ["AA"; "DL"])
                  sample_store).1 = Ok fig ->
     length (frames fig) = distinct_days (select_airlines (Some ["AA"; "DL"]) sample_daily) /\
     exists days,
       map frame_name (frames fig) = map str_of_Z days /\
       StronglySorted Z.lt days /\
       forall d, d ∈ days <->
                 d ∈ map da_Day (select_airlines (Some ["AA"; "DL"]) sample_daily)) /\
  (numeric_daily_column "AvgDepDelay" = true ->
   (1 < distinct_days (select_airlines (Some ["AA"; "DL"]) sample_daily))%nat ->
   exists fig, (create_animated_airline_chart 1%nat "AvgDepDelay" (Some ["AA"; "DL"])
                  sample_store).1 = Ok fig).
Proof.
  split; [reflexivity|].
  apply (animated_frames_by_day sample_store 1%nat sample_daily "AvgDepDelay"
           (Some ["AA"; "DL"])).
  reflexivity.
Defined.



(** The bound on the two sample tables: 1.1 times 120 flights, and 100
    for delays that are all negative. *)
Example animated_x_axis_bound_samples :
  xaxis_range (layout (figure_of
    (create_animated_airline_chart 1%nat "FlightCount" None sample_store).1)) =
    Some (0%Q, (120 * (11 # 10))%Q) /\
  xaxis_range (layout (figure_of
    (create_animated_airline_chart 3%nat "AvgDepDelay" None sample_store).1)) =
    Some (0%Q, 100%Q).
Proof. split; reflexivity. Qed.

(** What the program decides of C10: the y axis of every returned
    specification has the category order 'total ascending' (charts.py,
    line 236).  Where the bars are drawn under that setting is the
    renderer's part. *)
Lemma animated_yaxis_categoryorder (σ : store) (l : loc)
    (rows : list DailyAirlineMetricsRow) (metric : string) (sel : option (list string))
    (fig : Figure) :
  σ !! l = Some (DailyAirlineMetrics rows) ->
  (create_animated_airline_chart l metric sel σ).1 = Ok fig ->
  yaxis_categoryorder (layout fig) = Some "total ascending".
Proof.
  intros Hl. rewrite (create_animated_airline_chart_run _ _ _ _ _ Hl).
  by intros (fx & hi & _ & _ & _ & _ & _ & _ & _ & Hy)%animated_chart_inv.
Qed.



(** C7. Every specification returned by [create_sunburst] has the colour
    domain [0, 40], whatever AvgDelay values the table holds; the
    generator returns whenever plotly accepts the filtered hierarchy. *)
Theorem sunburst_color_domain (sunburst_check : list HierarchyRow -> option exn)
    (σ : store) (l : loc) (rows : list HierarchyRow) (selected_state : option string) :
  σ !! l = Some (HierarchyData rows) ->
  (forall fig, (create_sunburst sunburst_check l selected_state σ).1 = Ok fig ->
     coloraxis_range (layout fig) = Some (0%Q, 40%Q)) /\
  (sunburst_check (select_state selected_state rows) = None ->
   exists fig, (create_sunburst sunburst_check l selected_state σ).1 = Ok fig).
Proof.
  intros Hl. rewrite (create_sunburst_run _ _ _ _ _ Hl).
  unfold sunburst_of_rows, px_sunburst. split.
  - intros fig. destruct (sunburst_check _); [done|]. by intros [= <-].
  - intros ->. by eexists.
Qed.

Lemma sunburst_color_domain_witness :
  sample_store !! 2%nat = Some (HierarchyData sample_hierarchy) /\
  (forall fig, (create_sunburst accept_all 2%nat (Some "CA") sample_store).1 = Ok fig ->
     coloraxis_range (layout fig) = Some (0%Q, 40%Q)) /\
  (accept_all (select_state (Some "CA") sample_hierarchy) = None ->
   exists fig, (create_sunburst accept_all 2%nat (Some "CA") sample_store).1 = Ok fig).
Proof.
  split; [reflexivity|].
  apply (sunburst_color_domain accept_all sample_store 2%nat sample_hierarchy (Some "CA")).
  reflexivity.
Defined.

(** The sample hierarchy has delays of -5 and 75 minutes for California;
    the colour domain of its sunburst is still [0, 40]. *)
Example sunburst_color_domain_sample :
  map hr_AvgDelay (select_state (Some "CA") sample_hierarchy) = [(-5)%Q; 75%Q] /\
  coloraxis_range (layout (figure_of
    (create_sunburst accept_all 2%nat (Some "CA") sample_store).1)) = Some (0%Q, 40%Q).
Proof. split; reflexivity. Qed.



(** ** Metric descriptors *)



Lemma choropleth_of_rows_inv rows metric fig :
  choropleth_of_rows rows metric = Ok fig ->
  title_text (layout fig) =
    Some (ch_title (dict_get choropleth_metric_config metric choropleth_AvgDepDelay)) /\
  coloraxis_colorbar_title (layout fig) =
    Some (ch_labels_z (dict_get choropleth_metric_config metric choropleth_AvgDepDelay)).
Proof.
  unfold choropleth_of_rows.
  destruct (px_choropleth _ _ _) as [fig0|e]; [|done].
  destruct (map_result _ rows) as [text|e]; [|done].
  by intros [= <-].
Qed.

Lemma map_label_numeric metric config (f : StateMetricsRow -> Q) rows :
  state_column metric = Some (fun r => Num (f r)) ->
  exists text, map_result (map_label state_column metric config) rows = Ok text.
Proof.
  intros Hf. induction rows as [|r rows [text IH]]; simpl; [by eexists|].
  unfold map_label at 1. rewrite Hf. simpl. rewrite IH. by eexists.
Qed.

(** With a metric of its table [create_choropleth] returns, and what it
    returns carries the title and colour-bar label of that metric. *)
Lemma choropleth_known_metric (σ : store) l rows metric config :
  σ !! l = Some (StateMetrics rows) ->
  choropleth_metric_config !! metric = Some config ->
  exists fig,
    (create_choropleth l metric σ).1 = Ok fig /\
    title_text (layout fig) = Some (ch_title config) /\
    coloraxis_colorbar_title (layout fig) = Some (ch_labels_z config).
Proof.
  intros Hl Hc. rewrite (create_choropleth_run _ _ _ _ Hl).
  assert (exists f : StateMetricsRow -> Q, state_column metric = Some (fun r => Num (f r)))
    as [f Hf].
  { unfold choropleth_metric_config in Hc.
    destruct (decide (metric = "AvgDepDelay")) as [->|?];
      [by exists sm_AvgDepDelay|rewrite lookup_insert_ne in Hc by done].
    destruct (decide (metric = "CancellationRate")) as [->|?];
      [by exists sm_CancellationRate|rewrite lookup_insert_ne in Hc by done].
    destruct (decide (metric = "FlightCount")) as [->|?];
      [by exists (fun r => inject_Z (sm_FlightCount r))|rewrite lookup_insert_ne in Hc by done].
    by rewrite lookup_empty in Hc. }
  destruct (map_label_numeric metric
              (dict_get choropleth_metric_config metric choropleth_AvgDepDelay) f rows Hf)
    as [text Ht].
  assert (exists fig, choropleth_of_rows rows metric = Ok fig) as [fig Hfig].
  { unfold choropleth_of_rows, px_choropleth. rewrite Hf, Ht. by eexists. }
  exists fig. split; [done|].
  apply choropleth_of_rows_inv in Hfig. unfold dict_get in Hfig. by rewrite Hc in Hfig.
Qed.

(** With one of the three metrics of its descriptor table
    [create_animated_airline_chart] titles the chart and the x axis after
    that metric. *)
Lemma animated_known_metric (σ : store) l rows metric sel config fig :
  σ !! l = Some (DailyAirlineMetrics rows) ->
  animated_metric_config !! metric = Some config ->
  (create_animated_airline_chart l metric sel σ).1 = Ok fig ->
  title_text (layout fig) =
    Some (an_title config +:+ "<br><sub>" +:+ an_subtitle config +:+ "</sub>") /\
  xaxis_title (layout fig) = Some (an_x_label config).
Proof.
  intros Hl Hc. rewrite (create_animated_airline_chart_run _ _ _ _ _ Hl).
  intros (fx & hi & _ & _ & _ & _ & Ht & Hx & _)%animated_chart_inv.
  unfold dict_get in Ht, Hx. by rewrite Hc in Ht, Hx.
Qed.




(** ** Tables with fewer than two days *)

(** With fewer than two distinct days px.bar builds no animation menu,
    and the generator ends with an exception whatever the metric. *)
Lemma animated_chart_needs_two_days (σ : store) l rows metric sel :
  σ !! l = Some (DailyAirlineMetrics rows) ->
  (distinct_days (select_airlines sel rows) <= 1)%nat ->
  exists e, (create_animated_airline_chart l metric sel σ).1 = Raise e.
Proof.
  intros Hl Hd. rewrite (create_animated_airline_chart_run _ _ _ _ _ Hl).
  by apply animated_chart_few_days.
Qed.

(** C2, at the failing input: on a daily table without rows, and on a
    table that the airline filter leaves without rows,
    [create_animated_airline_chart] ends with the IndexError of
    [fig.layout.updatemenus[0]] (charts.py, line 259) instead of
    returning an empty specification. *)
Theorem animated_chart_without_rows_raises :
  sample_store !! 4%nat = Some (DailyAirlineMetrics []) /\
  (create_animated_airline_chart 4%nat "FlightCount" None sample_store).1 = Raise IndexError /\
  select_airlines (Some ["ZZ"]) sample_daily = [] /\
  (create_animated_airline_chart 1%nat "FlightCount" (Some ["ZZ"]) sample_store).1 =
    Raise IndexError.
Proof. repeat split; reflexivity. Qed.

(** C3, at the failing input: CancellationRate, which the dashboard
    offers for the animated chart, has no descriptor there; the chart of
    cancellation rates is titled and labelled as the chart of flight
    counts. *)
Theorem animated_CancellationRate_descriptor :
  animated_metric_config !! "CancellationRate" = None /\
  exists fig,
    (create_animated_airline_chart 1%nat "CancellationRate" None sample_store).1 = Ok fig /\
    title_text (layout fig) =
      Some "Daily Flight Volume by Airline<br><sub>Number of flights operated each day</sub>" /\
    xaxis_title (layout fig) = Some "Daily Flights" /\
    match data fig with
    | Bar name x _ _ _ _ :: _ => name = "UA" /\ x = [Num (1 # 4)%Q]
    | _ => False
    end.
Proof.
  split; [by vm_compute|].
  exists (figure_of (create_animated_airline_chart 1%nat "CancellationRate" None sample_store).1).
  repeat split; by vm_compute.
Qed.

(** * Further properties of the generators *)

(** ** When the animated chart is returned *)

Lemma daily_column_cases metric fx :
  daily_column metric = Some fx ->
  (numeric_daily_column metric = true /\ exists f, fx = fun r => Num (f r)) \/
  (metric = "Airline" /\ fx = fun r => Str (da_Airline r)).
Proof.
  unfold daily_column.
  destruct (String.eqb_spec metric "Day") as [->|?].
  { intros [= <-]. left. split; [reflexivity|]. by exists (fun r => inject_Z (da_Day r)). }
  destruct (String.eqb_spec metric "Airline") as [->|?].
  { intros [= <-]. by right. }
  destruct (String.eqb_spec metric "FlightCount") as [->|?].
  { intros [= <-]. left. split; [reflexivity|]. by exists (fun r => inject_Z (da_FlightCount r)). }
  destruct (String.eqb_spec metric "AvgDepDelay") as [->|?].
  { intros [= <-]. left. split; [reflexivity|]. by exists da_AvgDepDelay. }
  destruct (String.eqb_spec metric "OnTimeRate") as [->|?].
  { intros [= <-]. left. split; [reflexivity|]. by exists da_OnTimeRate. }
  destruct (String.eqb_spec metric "CancellationRate") as [->|?].
  { intros [= <-]. left. split; [reflexivity|]. by exists da_CancellationRate. }
  done.
Qed.

Lemma series_max_strings {R : Type} (f : R -> string) (rows : list R) :
  rows <> [] -> x_range_max (series_max (map (fun r => Str (f r)) rows)) = Raise TypeError.
Proof.
  destruct rows as [|r rows]; [done|]. intros _. simpl.
  destruct (fold_cell_max_spec (map (fun r => Str (f r)) rows) (Str (f r))) as [Hin _].
  destruct (fold_left cell_max _ _) as [q|s]; [|done].
  change (Num q ∈ map (fun r => Str (f r)) (r :: rows)) in Hin.
  by apply list_elem_of_fmap in Hin as (? & ? & _).
Qed.

Lemma animated_chart_index_error rows metric sel fx x_max :
  daily_column metric = Some fx ->
  x_range_max (series_max (map fx (select_airlines sel rows))) = Ok x_max ->
  (distinct_days (select_airlines sel rows) <= 1)%nat ->
  animated_chart_of_rows rows metric sel = Raise IndexError.
Proof.
  intros Hfx Hx Hd. unfold animated_chart_of_rows. rewrite Hfx, Hx.
  unfold px_bar. rewrite Hfx. apply finish_animated_no_menu. simpl.
  rewrite length_map, (days_of_sorted (select_airlines sel rows)) by apply stable_sort_perm.
  destruct (Z.ltb_spec 1 (Z.of_nat (distinct_days (select_airlines sel rows)))); [lia|done].
Qed.

Lemma distinct_days_nil : distinct_days [] = 0%nat.
Proof. reflexivity. Qed.

Lemma distinct_days_pos rows : (0 < distinct_days rows)%nat -> rows <> [].
Proof. intros H ->. rewrite distinct_days_nil in H. lia. Qed.

(** X1. On a daily table [create_animated_airline_chart] returns a
    specification exactly when the metric is one of the numeric columns
    and at least two distinct days remain after the airline filter. *)
Theorem animated_chart_returns_iff (σ : store) (l : loc)
    (rows : list DailyAirlineMetricsRow) (metric : string) (sel : option (list string)) :
  σ !! l = Some (DailyAirlineMetrics rows) ->
  (exists fig, (create_animated_airline_chart l metric sel σ).1 = Ok fig) <->
  numeric_daily_column metric = true /\
  (1 < distinct_days (select_airlines sel rows))%nat.
Proof.
  intros Hl. rewrite (create_animated_airline_chart_run _ _ _ _ _ Hl). split.
  - intros [fig Hfig].
    destruct (animated_chart_inv _ _ _ _ Hfig) as (fx & hi & Hfx & Hx & Hd & _).
    split; [|done].
    destruct (daily_column_cases _ _ Hfx) as [[Hnum _]|[_ ->]]; [done|].
    rewrite series_max_strings in Hx; [done|].
    apply distinct_days_pos. lia.
  - intros [Hnum Hd]. by apply animated_chart_numeric_returns.
Qed.

Lemma animated_chart_returns_iff_witness :
  sample_store !! 1%nat = Some (DailyAirlineMetrics sample_daily) /\
  ((exists fig, (create_animated_airline_chart 1%nat "OnTimeRate" (Some ["UA"])
                   sample_store).1 = Ok fig) <->
   numeric_daily_column "OnTimeRate" = true /\
   (1 < distinct_days (select_airlines (Some ["UA"]) sample_daily))%nat).
Proof.
  split; [reflexivity|].
  apply (animated_chart_returns_iff sample_store 1%nat sample_daily "OnTimeRate" (Some ["UA"])).
  reflexivity.
Defined.

(** X2. The exceptions of [create_animated_airline_chart] on a daily
    table: KeyError for a metric that is no column, TypeError for the
    metric 'Airline' when rows remain (a string compared with 0), and
    IndexError from the missing animation menu when fewer than two
    distinct days remain. *)
Theorem animated_chart_exceptions (σ : store) (l : loc)
    (rows : list DailyAirlineMetricsRow) (metric : string) (sel : option (list string)) :
  σ !! l = Some (DailyAirlineMetrics rows) ->
  (daily_column metric = None ->
     (create_animated_airline_chart l metric sel σ).1 = Raise (KeyError metric)) /\
  (metric = "Airline" -> select_airlines sel rows <> [] ->
     (create_animated_airline_chart l metric sel σ).1 = Raise TypeError) /\
  (numeric_daily_column metric = true ->
   (distinct_days (select_airlines sel rows) <= 1)%nat ->
     (create_animated_airline_chart l metric sel σ).1 = Raise IndexError) /\
  (metric = "Airline" -> select_airlines sel rows = [] ->
     (create_animated_airline_chart l metric sel σ).1 = Raise IndexError).
Proof.
  intros Hl. rewrite (create_animated_airline_chart_run _ _ _ _ _ Hl).
  split; [|split; [|split]].
  - intros Hcol. unfold animated_chart_of_rows. by rewrite Hcol.
  - intros -> Hne. unfold animated_chart_of_rows.
    change (daily_column "Airline") with (Some (fun r => Str (da_Airline r))).
    cbv beta iota. by rewrite series_max_strings.
  - intros [f Hf]%numeric_daily_column_spec Hd.
    destruct (x_range_max_numeric f (select_airlines sel rows)) as [hi Hhi].
    by eapply animated_chart_index_error.
  - intros -> Hnil.
    eapply (animated_chart_index_error _ _ _ (fun r => Str (da_Airline r)) 100%Q);
      [done| |].
    + by rewrite Hnil.
    + rewrite Hnil, distinct_days_nil. lia.
Qed.

Lemma animated_chart_exceptions_witness :
  sample_store !! 1%nat = Some (DailyAirlineMetrics sample_daily) /\
  "Airline" = "Airline" /\
  select_airlines (Some ["UA"]) sample_daily <> [] /\
  numeric_daily_column "AvgDepDelay" = true /\
  (distinct_days (select_airlines (Some ["UA"]) sample_daily) <= 1)%nat /\
  (create_animated_airline_chart 1%nat "Airline" (Some ["UA"]) sample_store).1 =
    Raise TypeError /\
  (create_animated_airline_chart 1%nat "AvgDepDelay" (Some ["UA"]) sample_store).1 =
    Raise IndexError.
Proof.
  assert (select_airlines (Some ["UA"]) sample_daily <> []) as Hne by done.
  assert ((distinct_days (select_airlines (Some ["UA"]) sample_daily) <= 1)%nat) as Hd.
  { vm_compute. lia. }
  destruct (animated_chart_exceptions sample_store 1%nat sample_daily "Airline" (Some ["UA"])
              eq_refl) as (_ & Hty & _).
  destruct (animated_chart_exceptions sample_store 1%nat sample_daily "AvgDepDelay"
              (Some ["UA"]) eq_refl) as (_ & _ & Hix & _).
  repeat split; first [by apply Hty | by apply Hix | done].
Defined.

(** ** Tables of another kind *)

Lemma sort_values_needs_Day df by_ a ascending :
  is_daily df = false -> sort_values df ("Day" :: by_) (a :: ascending) = Raise (KeyError "Day").
Proof. by destruct df. Qed.

Lemma getitem_mask_daily df mask : is_daily (getitem_mask df mask) = is_daily df.
Proof. by destruct df. Qed.

Lemma getitem_State_missing df :
  is_hierarchy df = false -> getitem df "State" = Raise (KeyError "State").
Proof. by destruct df. Qed.

Lemma px_choropleth_other df color scale :
  is_state df = false -> px_choropleth df color scale = Raise ValueError.
Proof. by destruct df. Qed.

Lemma px_sunburst_other check df scale range :
  is_hierarchy df = false -> px_sunburst check df scale range = Raise ValueError.
Proof. by destruct df. Qed.

Lemma animated_chart_other_table (σ : store) l df metric sel :
  σ !! l = Some df -> is_daily df = false ->
  raises (create_animated_airline_chart l metric sel σ).1.
Proof.
  intros Hl Hk. unfold create_animated_airline_chart, raises.
  rewrite bind_run, (df_copy_run _ _ _ Hl), bind_run.
  assert (forall (σ' : store) l' df' (k : Q -> loc -> M Figure),
            σ' !! l' = Some df' -> is_daily df' = false ->
            exists e,
              ((col ← df_getitem l' metric;
                x_max ← lift (x_range_max (series_max col));
                df ← df_sort_values l' ["Day"; metric] [true; negb (ascending_metric metric)];
                k x_max df) σ').1 = Raise e) as Htail.
  { intros σ' l' df' k Hl' Hk'.
    rewrite bind_run, (df_getitem_run _ _ _ _ Hl').
    destruct (getitem df' metric) as [col|e]; [|by eexists].
    rewrite bind_run. unfold lift at 1.
    destruct (x_range_max _) as [x_max|e]; [|by eexists].
    rewrite bind_run, (df_sort_values_run _ _ _ _ _ Hl'), sort_values_needs_Day by done.
    by eexists. }
  destruct (truthy_list sel && (0 <? py_len sel)).
  - rewrite bind_run, (df_getitem_run _ _ _ _ (lookup_snoc σ df)).
    destruct (getitem df "Airline") as [col|e]; [|by eexists].
    rewrite (df_getitem_mask_run _ _ _ _ (lookup_snoc σ df)).
    eapply (Htail _ _ _ (fun x_max df => _) (lookup_snoc _ _)).
    by rewrite getitem_mask_daily.
  - eapply (Htail _ _ _ (fun x_max df => _) (lookup_snoc _ _)). done.
Qed.

(** X3. A generator given a table of another kind than its own ends
    with an exception: no chart is built from the wrong table. *)
Theorem generators_reject_other_tables
    (sunburst_check : list HierarchyRow -> option exn) (σ : store) (l : loc)
    (df : DataFrame) (metric : string) (sel : option (list string))
    (selected_state : option string) :
  σ !! l = Some df ->
  (is_state df = false -> raises (create_choropleth l metric σ).1) /\
  (is_daily df = false -> raises (create_animated_airline_chart l metric sel σ).1) /\
  (is_hierarchy df = false -> raises (create_sunburst sunburst_check l selected_state σ).1).
Proof.
  intros Hl. split; [|split].
  - intros Hk. unfold create_choropleth, raises.
    rewrite bind_run, (load_run _ _ _ Hl), bind_run. unfold lift at 1.
    rewrite px_choropleth_other by done. by eexists.
  - by apply animated_chart_other_table.
  - intros Hk. unfold create_sunburst, raises. rewrite bind_run.
    destruct (truthy_str selected_state).
    + rewrite bind_run, (df_getitem_run _ _ _ _ Hl), getitem_State_missing by done.
      by eexists.
    + unfold mret at 1, M_ret. cbv beta iota.
      rewrite bind_run, (load_run _ _ _ Hl), bind_run. unfold lift at 1.
      rewrite px_sunburst_other by done. by eexists.
Qed.

Lemma generators_reject_other_tables_witness :
  sample_store !! 2%nat = Some (HierarchyData sample_hierarchy) /\
  raises (create_choropleth 2%nat "FlightCount" sample_store).1 /\
  raises (create_animated_airline_chart 2%nat "FlightCount" (Some ["AA"]) sample_store).1 /\
  sample_store !! 0%nat = Some (StateMetrics sample_state) /\
  raises (create_sunburst accept_all 0%nat None sample_store).1.
Proof.
  destruct (generators_reject_other_tables accept_all sample_store 2%nat
              (HierarchyData sample_hierarchy) "FlightCount" (Some ["AA"]) None eq_refl)
    as (Hc & Ha & _).
  destruct (generators_reject_other_tables accept_all sample_store 0%nat
              (StateMetrics sample_state) "FlightCount" None None eq_refl)
    as (_ & _ & Hs).
  repeat split; first [by apply Hc | by apply Ha | by apply Hs].
Defined.

(** ** The contents of the choropleth *)





(** ** The figure of the animated chart *)

Lemma animated_chart_figure rows metric sel fig :
  animated_chart_of_rows rows metric sel = Ok fig ->
  exists fx x_max f fs,
    daily_column metric = Some fx /\
    x_range_max (series_max (map fx (select_airlines sel rows))) = Ok x_max /\
    map (bar_frame fx (animated_rows fx metric sel rows))
      (unique (map da_Day (animated_rows fx metric sel rows))) = f :: fs /\
    fs <> [] /\
    data fig =
      map (set_hovertemplate
             (animated_hovertemplate
                (dict_get animated_metric_config metric animated_FlightCount)))
        (frame_data f) /\
    frames fig = f :: fs /\
    updatemenus (layout fig) =
      [{| buttons := [{| button_label := "&#9654;"; frame_duration := 400;
                         transition_duration := 150 |}; px_stop_button] |}] /\
    sliders (layout fig) =
      [{| slider_steps := map frame_name (f :: fs); currentvalue_prefix := "Day: " |}] /\
    height (layout fig) = Some 500 /\
    showlegend (layout fig) = Some false.
Proof.
  unfold animated_chart_of_rows.
  destruct (daily_column metric) as [fx|] eqn:Hfx; [|done].
  destruct (x_range_max _) as [x_max|e] eqn:Hx; [|done].
  unfold px_bar. rewrite Hfx. fold (animated_rows fx metric sel rows).
  set (frame_list := map (bar_frame fx (animated_rows fx metric sel rows)) _).
  destruct (Z.ltb_spec 1 (Z.of_nat (length frame_list))) as [Hlt|Hge].
  - destruct frame_list as [|f [|f' fs]] eqn:Hlist; simpl in Hlt; try lia.
    unfold finish_animated, set_frame_duration, set_transition_duration, style_slider.
    simpl. intros [= <-]. exists fx, x_max, f, (f' :: fs). by repeat split.
  - by rewrite finish_animated_no_menu.
Qed.

(** X5. Every specification returned by [create_animated_airline_chart]
    has one animation menu whose play button runs frames for 400 ms with
    transitions of 150 ms while the stop button keeps plotly's durations
    of 0; it has one slider with one step per frame, named like the
    frames, and the prefix 'Day: '; its height is 500 and it shows no
    legend. *)
Theorem animated_controls (σ : store) (l : loc) (rows : list DailyAirlineMetricsRow)
    (metric : string) (sel : option (list string)) (fig : Figure) :
  σ !! l = Some (DailyAirlineMetrics rows) ->
  (create_animated_airline_chart l metric sel σ).1 = Ok fig ->
  updatemenus (layout fig) =
    [{| buttons := [{| button_label := "&#9654;"; frame_duration := 400;
                       transition_duration := 150 |};
                    {| button_label := "&#9724;"; frame_duration := 0;
                       transition_duration := 0 |}] |}] /\
  sliders (layout fig) =
    [{| slider_steps := map frame_name (frames fig); currentvalue_prefix := "Day: " |}] /\
  height (layout fig) = Some 500 /\
  showlegend (layout fig) = Some false.
Proof.
  intros Hl. rewrite (create_animated_airline_chart_run _ _ _ _ _ Hl).
  intros (fx & x_max & f & fs & _ & _ & _ & _ & _ & Hfr & Hm & Hs & Hh & Hleg)%animated_chart_figure.
  by rewrite Hfr.
Qed.

Lemma animated_controls_witness :
  sample_store !! 1%nat = Some (DailyAirlineMetrics sample_daily) /\
  (create_animated_airline_chart 1%nat "AvgDepDelay" None sample_store).1 =
    Ok (figure_of (create_animated_airline_chart 1%nat "AvgDepDelay" None sample_store).1) /\
  sliders (layout (figure_of
    (create_animated_airline_chart 1%nat "AvgDepDelay" None sample_store).1)) =
    [{| slider_steps := ["1"; "2"]; currentvalue_prefix := "Day: " |}].
Proof.
  split; [reflexivity|]. split; [reflexivity|].
  destruct (animated_controls sample_store 1%nat sample_daily "AvgDepDelay" None
              (figure_of (create_animated_airline_chart 1%nat "AvgDepDelay" None
                            sample_store).1) eq_refl eq_refl) as (_ & Hs & _).
  exact Hs.
Defined.

Lemma animated_days_sorted fx metric sel rows :
  StronglySorted Z.lt (unique (map da_Day (animated_rows fx metric sel rows))) /\
  forall d, d ∈ unique (map da_Day (animated_rows fx metric sel rows)) <->
            d ∈ map da_Day (select_airlines sel rows).
Proof.
  unfold animated_rows.
  destruct (animated_sorted_rows metric fx (select_airlines sel rows)) as (Hperm & Hsorted & _).
  split.
  - apply StronglySorted_NoDup_lt; [|apply unique_NoDup].
    eapply StronglySorted_sublist; [apply unique_from_sublist|].
    eapply StronglySorted_map; [|exact Hsorted].
    intros r1 r2 [H|[H _]]; lia.
  - intros d. rewrite unique_elem. by rewrite (Permutation_map da_Day Hperm).
Qed.

Lemma frame_traces_elem fx airlines rs t :
  t ∈ frame_traces fx airlines rs ->
  exists i a g,
    airlines !! i = Some a /\ rows_of_airline a rs = g /\ g <> [] /\ t = bar_trace fx i a g.
Proof.
  unfold frame_traces. rewrite list_elem_of_In, in_concat.
  intros (ts & Hts & Ht). apply list_elem_of_In, elem_of_lookup_imap in Hts.
  destruct Hts as (i & a & -> & Ha). exists i, a, (rows_of_airline a rs).
  destruct (rows_of_airline a rs) as [|r g]; [done|].
  destruct Ht as [<-|[]]. by repeat split.
Qed.

Lemma bar_frame_traces fx sorted d t :
  t ∈ frame_data (bar_frame fx sorted d) ->
  exists i a g,
    unique (map da_Airline sorted) !! i = Some a /\
    rows_of_airline a (rows_of_day d sorted) = g /\ g <> [] /\ t = bar_trace fx i a g.
Proof. apply frame_traces_elem. Qed.

(** X6. The traces a returned specification shows before the animation
    starts are those of its first frame, the earliest day, with the
    custom hover template; the traces kept in the frames, the first
    frame included, still carry plotly's own hover text. *)
Theorem animated_initial_traces (σ : store) (l : loc) (rows : list DailyAirlineMetricsRow)
    (metric : string) (sel : option (list string)) (fig : Figure) :
  σ !! l = Some (DailyAirlineMetrics rows) ->
  (create_animated_airline_chart l metric sel σ).1 = Ok fig ->
  exists f fs d,
    frames fig = f :: fs /\
    frame_name f = str_of_Z d /\
    (forall r, r ∈ select_airlines sel rows -> d <= da_Day r) /\
    data fig =
      map (set_hovertemplate
             (animated_hovertemplate
                (dict_get animated_metric_config metric animated_FlightCount)))
        (frame_data f) /\
    Forall (fun t => trace_hover t =
                     HoverTemplate
                       (animated_hovertemplate
                          (dict_get animated_metric_config metric animated_FlightCount)))
      (data fig) /\
    Forall (fun f' => Forall (fun t => trace_hover t = PxHover) (frame_data f')) (frames fig).
Proof.
  intros Hl. rewrite (create_animated_airline_chart_run _ _ _ _ _ Hl).
  intros (fx & x_max & f & fs & _ & _ & Hlist & _ & Hdata & Hfr & _)%animated_chart_figure.
  destruct (animated_days_sorted fx metric sel rows) as [Hsorted Hdays].
  destruct (unique (map da_Day (animated_rows fx metric sel rows))) as [|d ds] eqn:Hd;
    [done|].
  simpl in Hlist. injection Hlist as <- <-.
  exists (bar_frame fx (animated_rows fx metric sel rows) d),
    (map (bar_frame fx (animated_rows fx metric sel rows)) ds), d.
  set (f := bar_frame fx (animated_rows fx metric sel rows) d) in *.
  set (fs := map (bar_frame fx (animated_rows fx metric sel rows)) ds) in *.
  assert (map (bar_frame fx (animated_rows fx metric sel rows)) (d :: ds) = f :: fs)
    as Hlist by done.
  split; [done|]. split; [done|]. split.
  { intros r Hr. apply StronglySorted_inv in Hsorted as [_ Hall].
    assert (da_Day r ∈ d :: ds) as [->|Hin]%elem_of_cons.
    { apply Hdays. apply list_elem_of_fmap. by exists r. }
    - lia.
    - rewrite Forall_forall in Hall. specialize (Hall _ Hin). lia. }
  split; [done|]. split.
  - rewrite Hdata. apply Forall_forall. intros t [t' [-> Ht']]%list_elem_of_fmap.
    assert (t' ∈ frame_data f) as Hin by done.
    by apply bar_frame_traces in Hin as (i & a & g & _ & _ & _ & ->).
  - rewrite Hfr, <- Hlist. apply Forall_forall. intros f' (d' & -> & _)%list_elem_of_fmap.
    apply Forall_forall. intros t Ht.
    by apply bar_frame_traces in Ht as (i & a & g & _ & _ & _ & ->).
Qed.

Lemma animated_initial_traces_witness :
  sample_store !! 1%nat = Some (DailyAirlineMetrics sample_daily) /\
  (create_animated_airline_chart 1%nat "AvgDepDelay" None sample_store).1 =
    Ok (figure_of (create_animated_airline_chart 1%nat "AvgDepDelay" None sample_store).1) /\
  exists f fs,
    frames (figure_of (create_animated_airline_chart 1%nat "AvgDepDelay" None
                         sample_store).1) = f :: fs /\
    frame_name f = "1".
Proof.
  split; [reflexivity|]. split; [reflexivity|].
  destruct (animated_initial_traces sample_store 1%nat sample_daily "AvgDepDelay" None
              (figure_of (create_animated_airline_chart 1%nat "AvgDepDelay" None
                            sample_store).1) eq_refl eq_refl) as (f & fs & d & Hfr & _).
  exists f, fs. split; [exact Hfr|].
  assert (Some f = Some f) as Hf by reflexivity.
  change (Some f) with ((f :: fs) !! 0%nat) in Hf at 1. rewrite <- Hfr in Hf.
  vm_compute in Hf. by injection Hf as <-.
Defined.

(** ** The frames of the animated chart *)

Lemma filter_perm {A : Type} (p : A -> bool) (l1 l2 : list A) :
  Permutation l1 l2 -> Permutation (List.filter p l1) (List.filter p l2).
Proof.
  induction 1 as [|x l1 l2 Hp IH|x y l|l1 l2 l3 H1 IH1 H2 IH2]; simpl.
  - done.
  - destruct (p x); [by constructor|done].
  - destruct (p x), (p y); try done. apply perm_swap.
  - by etrans.
Qed.

Lemma frame_traces_shift fx rs airlines k :
  concat (map trace_rows
            (concat (imap (fun i a =>
                             match rows_of_airline a rs with
                             | [] => []
                             | g => [bar_trace fx (k + i) a g]
                             end) airlines))) =
    concat (map (fun a => rows_of_airline a rs) airlines) /\
  map trace_name
    (concat (imap (fun i a =>
                     match rows_of_airline a rs with
                     | [] => []
                     | g => [bar_trace fx (k + i) a g]
                     end) airlines)) `sublist_of` airlines.
Proof.
  revert k. induction airlines as [|a airlines IH]; intros k; [done|].
  rewrite imap_cons.
  rewrite (imap_ext _ (fun i a => match rows_of_airline a rs with
                                  | [] => []
                                  | g => [bar_trace fx (S k + i) a g]
                                  end)).
  2:{ intros i x _. simpl. by rewrite Nat.add_succ_r. }
  destruct (IH (S k)) as [IH1 IH2]. cbn [concat map].
  rewrite map_app, concat_app, IH1. split.
  - f_equal. destruct (rows_of_airline a rs); simpl; [done|by rewrite app_nil_r].
  - destruct (rows_of_airline a rs); simpl; [by apply sublist_cons|by apply sublist_skip].
Qed.

Lemma frame_traces_rows fx airlines rs :
  concat (map trace_rows (frame_traces fx airlines rs)) =
  concat (map (fun a => rows_of_airline a rs) airlines).
Proof. apply (frame_traces_shift fx rs airlines 0). Qed.

Lemma frame_traces_names fx airlines rs :
  map trace_name (frame_traces fx airlines rs) `sublist_of` airlines.
Proof. apply (frame_traces_shift fx rs airlines 0). Qed.

Lemma rows_of_airline_cons a r rs :
  rows_of_airline a (r :: rs) =
  if String.eqb (da_Airline r) a then r :: rows_of_airline a rs else rows_of_airline a rs.
Proof. reflexivity. Qed.

Lemma airline_groups_cons (airlines : list string) r rs :
  NoDup airlines ->
  (da_Airline r ∈ airlines ->
   Permutation (concat (map (fun a => rows_of_airline a (r :: rs)) airlines))
     (r :: concat (map (fun a => rows_of_airline a rs) airlines))) /\
  (da_Airline r ∉ airlines ->
   concat (map (fun a => rows_of_airline a (r :: rs)) airlines) =
   concat (map (fun a => rows_of_airline a rs) airlines)).
Proof.
  induction 1 as [|a airlines Ha Hnd [IH1 IH2]]; cbn [concat map].
  - split; [by intros ?%elem_of_nil|done].
  - rewrite rows_of_airline_cons.
    destruct (String.eqb_spec (da_Airline r) a) as [Heq|Hne]; split.
    + intros _. rewrite IH2 by (by rewrite Heq). done.
    + intros Hn. exfalso. apply Hn. rewrite Heq. by left.
    + intros [?|Hin]%elem_of_cons; [done|].
      rewrite (IH1 Hin). by rewrite Permutation_middle.
    + intros Hn. rewrite IH2; [done|]. intros Hin. apply Hn. by right.
Qed.

Lemma airline_groups_perm (airlines : list string) rs :
  NoDup airlines ->
  (forall r, r ∈ rs -> da_Airline r ∈ airlines) ->
  Permutation (concat (map (fun a => rows_of_airline a rs) airlines)) rs.
Proof.
  intros Hnd. induction rs as [|r rs IH]; intros Hin.
  - clear Hnd Hin. by induction airlines.
  - destruct (airline_groups_cons airlines r rs Hnd) as [H1 _].
    rewrite H1 by (apply Hin; by left). constructor. apply IH.
    intros r' Hr'. apply Hin. by right.
Qed.

Lemma elem_of_filter_bool {A : Type} (p : A -> bool) (l : list A) x :
  x ∈ List.filter p l <-> x ∈ l /\ p x = true.
Proof. by rewrite !list_elem_of_In, filter_In. Qed.

(** X7. In every specification returned by
    [create_animated_airline_chart], each frame is named after a day and
    draws exactly the rows of that day that remain after the airline
    filter; its traces are one per airline flying that day, each with the
    rows of its airline, their metric values as x and their airline as
    y. *)
Theorem animated_frame_contents (σ : store) (l : loc) (rows : list DailyAirlineMetricsRow)
    (metric : string) (sel : option (list string)) (fig : Figure) :
  σ !! l = Some (DailyAirlineMetrics rows) ->
  (create_animated_airline_chart l metric sel σ).1 = Ok fig ->
  exists fx,
    daily_column metric = Some fx /\
    Forall (fun f =>
      exists d,
        frame_name f = str_of_Z d /\
        Permutation (frame_rows f)
          (List.filter (fun r => da_Day r =? d) (select_airlines sel rows)) /\
        NoDup (map trace_name (frame_data f)) /\
        Forall (fun t =>
          trace_rows t <> [] /\
          (forall r, r ∈ trace_rows t -> da_Airline r = trace_name t) /\
          exists color,
            t = Bar (trace_name t) (map fx (trace_rows t))
                  (map (fun r => Str (da_Airline r)) (trace_rows t)) color
                  (trace_rows t) PxHover) (frame_data f))
      (frames fig).
Proof.
  intros Hl. rewrite (create_animated_airline_chart_run _ _ _ _ _ Hl).
  intros (fx & x_max & f & fs & Hfx & _ & Hlist & _ & _ & Hfr & _)%animated_chart_figure.
  exists fx. split; [done|]. rewrite Hfr, <- Hlist.
  set (sorted := animated_rows fx metric sel rows).
  assert (Permutation (select_airlines sel rows) sorted) as Hperm
    by apply stable_sort_perm.
  apply Forall_forall. intros f' (d & -> & _)%list_elem_of_fmap. exists d.
  split; [done|]. split; [|split].
  - unfold frame_rows, bar_frame. cbn [frame_data].
    rewrite frame_traces_rows, airline_groups_perm.
    + symmetry. by apply filter_perm.
    + apply unique_NoDup.
    + intros r [Hr _]%elem_of_filter_bool. apply unique_elem, list_elem_of_fmap. by exists r.
  - eapply sublist_NoDup; [apply unique_NoDup|apply frame_traces_names].
  - apply Forall_forall. intros t (i & a & g & _ & Hg & Hne & ->)%bar_frame_traces.
    cbn [bar_trace trace_rows trace_name]. split; [done|]. split.
    + intros r Hr. rewrite <- Hg in Hr. apply elem_of_filter_bool in Hr as [_ Hr].
      by apply String.eqb_eq in Hr.
    + by eexists.
Qed.

Lemma animated_frame_contents_witness :
  sample_store !! 1%nat = Some (DailyAirlineMetrics sample_daily) /\
  (create_animated_airline_chart 1%nat "FlightCount" None sample_store).1 =
    Ok (figure_of (create_animated_airline_chart 1%nat "FlightCount" None sample_store).1) /\
  exists fx,
    daily_column "FlightCount" = Some fx /\
    Forall (fun f =>
      exists d,
        frame_name f = str_of_Z d /\
        Permutation (frame_rows f)
          (List.filter (fun r => da_Day r =? d) (select_airlines None sample_daily)) /\
        NoDup (map trace_name (frame_data f)) /\
        Forall (fun t =>
          trace_rows t <> [] /\
          (forall r, r ∈ trace_rows t -> da_Airline r = trace_name t) /\
          exists color,
            t = Bar (trace_name t) (map fx (trace_rows t))
                  (map (fun r => Str (da_Airline r)) (trace_rows t)) color
                  (trace_rows t) PxHover) (frame_data f))
      (frames (figure_of
                 (create_animated_airline_chart 1%nat "FlightCount" None sample_store).1)).
Proof.
  split; [reflexivity|]. split; [reflexivity|].
  apply (animated_frame_contents sample_store 1%nat sample_daily "FlightCount" None);
    reflexivity.
Defined.

(** ** Colours of the airlines *)

Lemma chart_palette_NoDup : NoDup chart_palette.
Proof. compute_done. Qed.

Lemma palette_color_wraps i : palette_color (i + 10) = palette_color i.
Proof.
  unfold palette_color. change (length chart_palette) with 10%nat.
  by rewrite <- (Nat.Div0.mod_add i 1 10).
Qed.

Lemma palette_color_distinct i j :
  (i < 10)%nat -> (j < 10)%nat -> palette_color i = palette_color j -> i = j.
Proof.
  unfold palette_color. change (length chart_palette) with 10%nat.
  intros Hi Hj. rewrite !Nat.mod_small by done.
  destruct (lookup_lt_is_Some_2 chart_palette i) as [ci Hci]; [done|].
  destruct (lookup_lt_is_Some_2 chart_palette j) as [cj Hcj]; [done|].
  rewrite Hci, Hcj. simpl. intros ->.
  by eapply NoDup_lookup; [apply chart_palette_NoDup| |].
Qed.

(** X8. In every specification returned by
    [create_animated_airline_chart] the colour of a trace is the palette
    entry at the rank of its airline, counted in order of first
    appearance in the sorted rows and taken modulo 10: an airline has the
    same colour in all frames and in the initial traces, the first ten
    airlines have ten different colours, and the eleventh takes the
    colour of the first again. *)
Theorem animated_airline_colors (σ : store) (l : loc) (rows : list DailyAirlineMetricsRow)
    (metric : string) (sel : option (list string)) (fig : Figure) :
  σ !! l = Some (DailyAirlineMetrics rows) ->
  (create_animated_airline_chart l metric sel σ).1 = Ok fig ->
  exists fx,
    daily_column metric = Some fx /\
    (forall t, t ∈ data fig ++ concat (map frame_data (frames fig)) ->
       exists i,
         unique (map da_Airline (animated_rows fx metric sel rows)) !! i = Some (trace_name t) /\
         trace_color t = palette_color i) /\
    (forall t1 t2,
       t1 ∈ data fig ++ concat (map frame_data (frames fig)) ->
       t2 ∈ data fig ++ concat (map frame_data (frames fig)) ->
       trace_name t1 = trace_name t2 -> trace_color t1 = trace_color t2) /\
    (forall i, palette_color (i + 10) = palette_color i) /\
    (forall i j, (i < 10)%nat -> (j < 10)%nat -> i <> j -> palette_color i <> palette_color j).
Proof.
  intros Hl. rewrite (create_animated_airline_chart_run _ _ _ _ _ Hl).
  intros (fx & x_max & f & fs & Hfx & _ & Hlist & _ & Hdata & Hfr & _)%animated_chart_figure.
  exists fx. split; [done|].
  set (airlines := unique (map da_Airline (animated_rows fx metric sel rows))).
  assert (forall t, t ∈ data fig ++ concat (map frame_data (frames fig)) ->
            exists i, airlines !! i = Some (trace_name t) /\ trace_color t = palette_color i)
    as Hrank.
  { assert (forall t, t ∈ concat (map frame_data (frames fig)) ->
              exists i, airlines !! i = Some (trace_name t) /\
                        trace_color t = palette_color i) as Hframes.
    { intros t. rewrite list_elem_of_In, in_concat.
      intros (ts & Hts & Ht). apply list_elem_of_In in Hts, Ht.
      apply list_elem_of_fmap in Hts as (f' & -> & Hf').
      rewrite Hfr, <- Hlist in Hf'. apply list_elem_of_fmap in Hf' as (d & -> & _).
      apply bar_frame_traces in Ht as (i & a & g & Hi & _ & _ & ->). by exists i. }
    intros t [Ht|Ht]%elem_of_app; [|by apply Hframes].
    rewrite Hdata in Ht. apply list_elem_of_fmap in Ht as (t' & -> & Ht').
    destruct (Hframes t') as (i & Hi & Hc).
    { rewrite Hfr. simpl. apply elem_of_app. by left. }
    exists i. by destruct t'. }
  split; [done|]. split; [|split].
  - intros t1 t2 (i & Hi & ->)%Hrank (j & Hj & ->)%Hrank Hname.
    rewrite <- Hname in Hj. f_equal.
    eapply NoDup_lookup; [|exact Hi|exact Hj]. apply unique_NoDup.
  - apply palette_color_wraps.
  - intros i j Hi Hj Hne Hc. by apply Hne, palette_color_distinct.
Qed.

Lemma animated_airline_colors_witness :
  sample_store !! 1%nat = Some (DailyAirlineMetrics sample_daily) /\
  (create_animated_airline_chart 1%nat "FlightCount" None sample_store).1 =
    Ok (figure_of (create_animated_airline_chart 1%nat "FlightCount" None sample_store).1) /\
  map (fun t => (trace_name t, trace_color t))
    (concat (map frame_data
       (frames (figure_of
          (create_animated_airline_chart 1%nat "FlightCount" None sample_store).1)))) =
    [("DL", "#0d9488"); ("AA", "#0ea5e9"); ("UA", "#f59e0b");
     ("DL", "#0d9488"); ("AA", "#0ea5e9")] /\
  exists fx, daily_column "FlightCount" = Some fx.
Proof.
  split; [reflexivity|]. split; [reflexivity|]. split; [reflexivity|].
  destruct (animated_airline_colors sample_store 1%nat sample_daily "FlightCount" None
              (figure_of (create_animated_airline_chart 1%nat "FlightCount" None
                            sample_store).1) eq_refl eq_refl) as (fx & Hfx & _).
  by exists fx.
Defined.

(** ** The x axis holds every bar *)

(** X9. In every specification returned by
    [create_animated_airline_chart] the upper bound of the x axis is
    positive and no value of the metric among the remaining rows exceeds
    it: the axis is never of zero width and every bar ends inside it. *)
Theorem animated_axis_covers_values (σ : store) (l : loc)
    (rows : list DailyAirlineMetricsRow) (metric : string) (sel : option (list string))
    (fig : Figure) :
  σ !! l = Some (DailyAirlineMetrics rows) ->
  (create_animated_airline_chart l metric sel σ).1 = Ok fig ->
  exists fx hi,
    daily_column metric = Some fx /\
    xaxis_range (layout fig) = Some (0%Q, hi) /\
    (0 < hi)%Q /\
    forall r, r ∈ select_airlines sel rows -> exists v, fx r = Num v /\ (v <= hi)%Q.
Proof.
  intros Hl. rewrite (create_animated_airline_chart_run _ _ _ _ _ Hl).
  intros (fx & hi & Hfx & Hx & Hd & _ & _ & _ & Hrange & _)%animated_chart_inv.
  exists fx, hi. split; [done|]. split; [done|].
  apply x_range_max_spec in Hx as [[Hnil ->]|(q & Hq & Hmax & ->)].
  - split; [done|]. intros r Hr. exfalso.
    assert (fx r ∈ map fx (select_airlines sel rows)) as Hin
      by (apply list_elem_of_fmap; by exists r).
    rewrite Hnil in Hin. by apply elem_of_nil in Hin.
  - assert (forall r, r ∈ select_airlines sel rows -> exists v, fx r = Num v /\ (v <= q)%Q)
      as Hle.
    { intros r Hr. assert (cell_leb (fx r) (Num q) = true) as Hc.
      { apply Hmax, list_elem_of_fmap. by exists r. }
      destruct (fx r) as [v|s]; [|done]. exists v. split; [done|].
      by apply Qle_bool_iff. }
    destruct (Qle_bool q 0) eqn:E; simpl.
    + apply Qle_bool_iff in E. split; [done|].
      intros r (v & Hv & Hvq)%Hle. exists v. split; [done|]. lra.
    + assert (0 < q)%Q as Hpos.
      { apply Qnot_le_lt. intros Hq0%Qle_bool_iff. congruence. }
      split; [lra|].
      intros r (v & Hv & Hvq)%Hle. exists v. split; [done|]. lra.
Qed.

Lemma animated_axis_covers_values_witness :
  sample_store !! 3%nat = Some (DailyAirlineMetrics sample_early) /\
  (create_animated_airline_chart 3%nat "AvgDepDelay" None sample_store).1 =
    Ok (figure_of (create_animated_airline_chart 3%nat "AvgDepDelay" None sample_store).1) /\
  exists fx hi,
    daily_column "AvgDepDelay" = Some fx /\
    xaxis_range (layout (figure_of
      (create_animated_airline_chart 3%nat "AvgDepDelay" None sample_store).1)) =
      Some (0%Q, hi) /\
    (0 < hi)%Q /\
    forall r, r ∈ select_airlines None sample_early -> exists v, fx r = Num v /\ (v <= hi)%Q.
Proof.
  split; [reflexivity|]. split; [reflexivity|].
  apply (animated_axis_covers_values sample_store 3%nat sample_early "AvgDepDelay" None);
    reflexivity.
Defined.

(** ** Frame names *)

Lemma Z_to_int_proper (n : Z) :
  Z.to_int n <> Decimal.Pos Decimal.Nil /\ Z.to_int n <> Decimal.Neg Decimal.Nil.
Proof.
  destruct n as [|p|p]; simpl; split; try done;
    intros [= H]; by apply (DecimalPos.Unsigned.to_uint_nonnil p).
Qed.

Lemma str_of_Z_inj (m n : Z) : str_of_Z m = str_of_Z n -> m = n.
Proof.
  unfold str_of_Z. intros H. apply DecimalZ.to_int_inj.
  assert (NilZero.int_of_string (NilZero.string_of_int (Z.to_int m)) =
          NilZero.int_of_string (NilZero.string_of_int (Z.to_int n))) as H' by (by rewrite H).
  destruct (Z_to_int_proper m), (Z_to_int_proper n).
  rewrite !NilZero.isi in H' by done. by injection H'.
Qed.

(** X10. The frames of a returned specification have pairwise different
    names, so that each step of the slider addresses one frame; a frame
    name is the decimal writing of its day and reads back as that day. *)
Theorem animated_frame_names_distinct (σ : store) (l : loc)
    (rows : list DailyAirlineMetricsRow) (metric : string) (sel : option (list string))
    (fig : Figure) :
  σ !! l = Some (DailyAirlineMetrics rows) ->
  (create_animated_airline_chart l metric sel σ).1 = Ok fig ->
  NoDup (map frame_name (frames fig)) /\
  Forall (fun f => exists d,
            d ∈ map da_Day (select_airlines sel rows) /\
            NilZero.int_of_string (frame_name f) = Some (Z.to_int d))
    (frames fig).
Proof.
  intros Hl. rewrite (create_animated_airline_chart_run _ _ _ _ _ Hl).
  intros (fx & x_max & f & fs & _ & _ & Hlist & _ & _ & Hfr & _)%animated_chart_figure.
  rewrite Hfr, <- Hlist, map_map. cbn [bar_frame frame_name].
  destruct (animated_days_sorted fx metric sel rows) as [_ Hdays]. split.
  - assert (Inj (=) (=) str_of_Z) as Hinj by (intros m n; apply str_of_Z_inj).
    apply (NoDup_fmap_2 str_of_Z), unique_NoDup.
  - apply Forall_forall. intros f' (d & -> & Hd)%list_elem_of_fmap. exists d.
    split; [by apply Hdays|]. cbn [bar_frame frame_name]. unfold str_of_Z.
    destruct (Z_to_int_proper d). by apply NilZero.isi.
Qed.

Lemma animated_frame_names_distinct_witness :
  sample_store !! 1%nat = Some (DailyAirlineMetrics sample_daily) /\
  (create_animated_airline_chart 1%nat "FlightCount" None sample_store).1 =
    Ok (figure_of (create_animated_airline_chart 1%nat "FlightCount" None sample_store).1) /\
  NoDup (map frame_name (frames (figure_of
    (create_animated_airline_chart 1%nat "FlightCount" None sample_store).1))).
Proof.
  split; [reflexivity|]. split; [reflexivity|].
  apply (animated_frame_names_distinct sample_store 1%nat sample_daily "FlightCount" None);
    reflexivity.
Defined.

(** ** The airline filter as a set *)

(** X11. [create_animated_airline_chart] uses [selected_airlines] only
    as a set: two collections with the same members, in any order and
    with any repetitions, give the same result. *)
Theorem animated_selection_as_set (σ : store) (l : loc)
    (rows : list DailyAirlineMetricsRow) (metric : string) (sel1 sel2 : list string) :
  σ !! l = Some (DailyAirlineMetrics rows) ->
  (forall a, a ∈ sel1 <-> a ∈ sel2) ->
  (create_animated_airline_chart l metric (Some sel1) σ).1 =
  (create_animated_airline_chart l metric (Some sel2) σ).1.
Proof.
  intros Hl Hsel. rewrite !(create_animated_airline_chart_run _ _ _ _ _ Hl).
  unfold animated_chart_of_rows.
  assert (select_airlines (Some sel1) rows = select_airlines (Some sel2) rows) as ->;
    [|done].
  unfold select_airlines.
  destruct sel1 as [|a1 sel1], sel2 as [|a2 sel2]; simpl.
  - done.
  - exfalso. eapply elem_of_nil, Hsel. by left.
  - exfalso. eapply elem_of_nil, Hsel. by left.
  - apply List.filter_ext. intros r. apply bool_decide_ext, Hsel.
Qed.

Lemma animated_selection_as_set_witness :
  sample_store !! 1%nat = Some (DailyAirlineMetrics sample_daily) /\
  (forall a, a ∈ ["AA"; "DL"] <-> a ∈ ["DL"; "AA"; "DL"]) /\
  (create_animated_airline_chart 1%nat "OnTimeRate" (Some ["AA"; "DL"]) sample_store).1 =
  (create_animated_airline_chart 1%nat "OnTimeRate" (Some ["DL"; "AA"; "DL"]) sample_store).1.
Proof.
  assert (forall a : string, a ∈ ["AA"; "DL"] <-> a ∈ ["DL"; "AA"; "DL"]) as Hsel
    by set_solver.
  split; [reflexivity|]. split; [exact Hsel|].
  apply (animated_selection_as_set sample_store 1%nat sample_daily "OnTimeRate");
    [reflexivity|exact Hsel].
Defined.

(** ** The sunburst *)





Lemma filter_filter_same {A : Type} (p : A -> bool) (l : list A) :
  List.filter p (List.filter p l) = List.filter p l.
Proof.
  induction l as [|x l IH]; [done|]. simpl.
  destruct (p x) eqn:E; [|done]. simpl. by rewrite E, IH.
Qed.

(** X13. Filtering twice is filtering once: [create_sunburst] with a
    non-empty state name, on the table already restricted to that state,
    returns what it returns on the whole table; and the empty string as
    [selected_state] is the same computation as None. *)
Theorem sunburst_filter_idempotent (sunburst_check : list HierarchyRow -> option exn)
    (σ σ' : store) (l l' : loc) (rows : list HierarchyRow) (s : string) :
  s <> "" ->
  σ !! l = Some (HierarchyData rows) ->
  σ' !! l' = Some (HierarchyData (List.filter (fun r => String.eqb (hr_State r) s) rows)) ->
  (create_sunburst sunburst_check l' (Some s) σ').1 =
    (create_sunburst sunburst_check l (Some s) σ).1 /\
  create_sunburst sunburst_check l (Some "") σ = create_sunburst sunburst_check l None σ.
Proof.
  intros Hs Hl Hl'. split; [|reflexivity].
  rewrite (create_sunburst_run _ _ _ _ _ Hl), (create_sunburst_run _ _ _ _ _ Hl').
  unfold sunburst_of_rows, select_state.
  destruct s as [|c s]; [done|]. simpl. by rewrite filter_filter_same.
Qed.

Lemma sunburst_filter_idempotent_witness :
  "CA" <> "" /\
  sample_store !! 2%nat = Some (HierarchyData sample_hierarchy) /\
  [HierarchyData (List.filter (fun r => String.eqb (hr_State r) "CA") sample_hierarchy)]
    !! 0%nat =
    Some (HierarchyData
            (List.filter (fun r => String.eqb (hr_State r) "CA") sample_hierarchy)) /\
  (create_sunburst accept_all 0%nat (Some "CA")
     [HierarchyData (List.filter (fun r => String.eqb (hr_State r) "CA") sample_hierarchy)]).1 =
    (create_sunburst accept_all 2%nat (Some "CA") sample_store).1 /\
  create_sunburst accept_all 2%nat (Some "") sample_store =
    create_sunburst accept_all 2%nat None sample_store.
Proof.
  split; [discriminate|]. split; [reflexivity|]. split; [reflexivity|].
  apply (sunburst_filter_idempotent accept_all sample_store _ 2%nat 0%nat sample_hierarchy "CA");
    [discriminate|reflexivity|reflexivity].
Defined.

(** * The dashboard *)

Lemma try_chart_run text (m : M Figure) σ :
  (try_chart text m σ).1 =
  match (m σ).1 with
  | Ok fig => Ok (Chart fig)
  | Raise e => Ok (ErrorMessage text e)
  end.
Proof. unfold try_chart. by destruct (m σ) as [[fig|e] σ']. Qed.

Lemma StronglySorted_strict {A : Type} (R : A -> A -> Prop) (l : list A) :
  StronglySorted R l -> NoDup l -> StronglySorted (fun x y => R x y /\ x <> y) l.
Proof.
  induction 1 as [|x l Hl IH Hx]; intros Hnd; [constructor|].
  apply NoDup_cons in Hnd as [Hnx Hnd]. constructor; [by apply IH|].
  apply Forall_forall. intros y Hy. rewrite Forall_forall in Hx.
  split; [by apply Hx|]. by intros ->.
Qed.

Lemma sorted_options (l : list string) :
  StronglySorted string_lt (stable_sort String.leb (unique l)) /\
  forall a, a ∈ stable_sort String.leb (unique l) <-> a ∈ l.
Proof.
  assert (Permutation (unique l) (stable_sort String.leb (unique l))) as Hperm
    by apply stable_sort_perm.
  split.
  - apply StronglySorted_strict.
    + apply stable_sort_sorted; [apply String.leb_total|apply string_leb_trans].
    + rewrite <- Hperm. apply unique_NoDup.
  - intros a. by rewrite <- Hperm, unique_elem.
Qed.

(** X14. The airlines offered by the multiselect and the states offered
    by the state select box are exactly the airlines and states of the
    table, each once, in strictly increasing order. *)
Theorem options_sorted_and_exact (daily : list DailyAirlineMetricsRow)
    (hierarchy : list HierarchyRow) :
  StronglySorted string_lt (all_airlines daily) /\
  (forall a, a ∈ all_airlines daily <-> exists r, r ∈ daily /\ da_Airline r = a) /\
  StronglySorted string_lt (all_states hierarchy) /\
  (forall s, s ∈ all_states hierarchy <-> exists r, r ∈ hierarchy /\ hr_State r = s).
Proof.
  destruct (sorted_options (map da_Airline daily)) as [Ha1 Ha2].
  destruct (sorted_options (map hr_State hierarchy)) as [Hs1 Hs2].
  repeat split; try done.
  - intros Ha%Ha2. apply list_elem_of_fmap in Ha as (r & -> & Hr). by exists r.
  - intros (r & Hr & <-). apply Ha2, list_elem_of_fmap. by exists r.
  - intros Hs%Hs2. apply list_elem_of_fmap in Hs as (r & -> & Hr). by exists r.
  - intros (r & Hr & <-). apply Hs2, list_elem_of_fmap. by exists r.
Qed.

Lemma animation_options_numeric metric :
  metric ∈ animation_metric_options -> numeric_daily_column metric = true.
Proof.
  unfold animation_metric_options. intros H.
  repeat (apply elem_of_cons in H as [->|H]; [reflexivity|]).
  by apply elem_of_nil in H.
Qed.

(** X15. The animation section of the page, for each metric it offers:
    with nothing selected the chart is built from all airlines; it shows
    a chart when at least two distinct days remain after the selection,
    and otherwise the error message with the IndexError of the missing
    animation menu. *)
Theorem show_animation_outcome (σ : store) (l : loc) (rows : list DailyAirlineMetricsRow)
    (selected : list string) (metric : string) :
  σ !! l = Some (DailyAirlineMetrics rows) ->
  metric ∈ animation_metric_options ->
  (selected = [] -> select_airlines (airlines_argument selected) rows = rows) /\
  (selected <> [] ->
     select_airlines (airlines_argument selected) rows =
     List.filter (fun r => bool_decide (da_Airline r ∈ selected)) rows) /\
  ((1 < distinct_days (select_airlines (airlines_argument selected) rows))%nat ->
     exists fig, (show_animation l selected metric σ).1 = Ok (Chart fig)) /\
  ((distinct_days (select_airlines (airlines_argument selected) rows) <= 1)%nat ->
     (show_animation l selected metric σ).1 =
     Ok (ErrorMessage "Error creating animated chart: " IndexError)).
Proof.
  intros Hl Hm%animation_options_numeric. split; [by intros ->|]. split.
  { by destruct selected. }
  unfold show_animation.
  rewrite try_chart_run, (create_animated_airline_chart_run _ _ _ _ _ Hl).
  split.
  - intros Hd.
    destruct (animated_chart_numeric_returns rows metric _ Hm Hd) as [fig ->].
    by exists fig.
  - intros Hd. destruct (numeric_daily_column_spec _ Hm) as [f Hf].
    destruct (x_range_max_numeric f (select_airlines (airlines_argument selected) rows))
      as [hi Hhi].
    by rewrite (animated_chart_index_error _ _ _ _ _ Hf Hhi Hd).
Qed.

Lemma show_animation_outcome_witness :
  sample_store !! 1%nat = Some (DailyAirlineMetrics sample_daily) /\
  ("CancellationRate" ∈ animation_metric_options) /\
  (distinct_days (select_airlines (airlines_argument ["UA"]) sample_daily) <= 1)%nat /\
  (show_animation 1%nat ["UA"] "CancellationRate" sample_store).1 =
    Ok (ErrorMessage "Error creating animated chart: " IndexError) /\
  (1 < distinct_days (select_airlines (airlines_argument []) sample_daily))%nat /\
  exists fig, (show_animation 1%nat [] "CancellationRate" sample_store).1 = Ok (Chart fig).
Proof.
  assert ("CancellationRate" ∈ animation_metric_options) as Hm by compute_done.
  assert ((distinct_days (select_airlines (airlines_argument ["UA"]) sample_daily) <= 1)%nat)
    as Hd1 by (vm_compute; lia).
  assert ((1 < distinct_days (select_airlines (airlines_argument []) sample_daily))%nat)
    as Hd2 by (vm_compute; lia).
  destruct (show_animation_outcome sample_store 1%nat sample_daily ["UA"] "CancellationRate"
              eq_refl Hm) as (_ & _ & _ & Herr).
  destruct (show_animation_outcome sample_store 1%nat sample_daily [] "CancellationRate"
              eq_refl Hm) as (_ & _ & Hok & _).
  repeat split; first [done | by apply Herr | by apply Hok].
Defined.

(** X16. A selection made from the airlines the multiselect offers never
    leaves the chart without rows: every selected airline has a row among
    the rows the chart is built from. *)
Theorem offered_selection_keeps_rows (rows : list DailyAirlineMetricsRow)
    (selected : list string) (a : string) :
  (forall a', a' ∈ selected -> a' ∈ all_airlines rows) ->
  a ∈ selected ->
  exists r, r ∈ select_airlines (airlines_argument selected) rows /\ da_Airline r = a.
Proof.
  intros Hsub Ha.
  destruct (sorted_options (map da_Airline rows)) as [_ Hexact].
  destruct (proj1 (list_elem_of_fmap da_Airline rows a) (proj1 (Hexact a) (Hsub a Ha)))
    as (r & Hra & Hr). symmetry in Hra.
  exists r. split; [|done].
  destruct selected as [|a0 selected]; [by apply elem_of_nil in Ha|].
  unfold airlines_argument, select_airlines. simpl.
  apply elem_of_filter_bool. split; [done|]. apply bool_decide_eq_true. by rewrite Hra.
Qed.

Lemma offered_selection_keeps_rows_witness :
  (forall a', a' ∈ ["UA"; "AA"] -> a' ∈ all_airlines sample_daily) /\
  ("UA" ∈ ["UA"; "AA"]) /\
  exists r, r ∈ select_airlines (airlines_argument ["UA"; "AA"]) sample_daily /\
            da_Airline r = "UA".
Proof.
  assert (forall a', a' ∈ ["UA"; "AA"] -> a' ∈ all_airlines sample_daily) as Hsub.
  { intros a' Ha. repeat (apply elem_of_cons in Ha as [->|Ha]; [compute_done|]).
    by apply elem_of_nil in Ha. }
  assert ("UA" ∈ ["UA"; "AA"]) as Ha by compute_done.
  split; [exact Hsub|]. split; [exact Ha|].
  exact (offered_selection_keeps_rows sample_daily ["UA"; "AA"] "UA" Hsub Ha).
Defined.

Lemma map_options_config metric :
  metric ∈ map_metric_options <-> is_Some (choropleth_metric_config !! metric).
Proof.
  unfold map_metric_options, choropleth_metric_config. split.
  - intros H. repeat (apply elem_of_cons in H as [->|H]; [by eexists|]).
    by apply elem_of_nil in H.
  - intros [config Hc].
    destruct (decide (metric = "AvgDepDelay")) as [->|?];
      [set_solver|rewrite lookup_insert_ne in Hc by done].
    destruct (decide (metric = "CancellationRate")) as [->|?];
      [set_solver|rewrite lookup_insert_ne in Hc by done].
    destruct (decide (metric = "FlightCount")) as [->|?];
      [set_solver|rewrite lookup_insert_ne in Hc by done].
    by rewrite lookup_empty in Hc.
Qed.

(** X17. The map section of the page never shows its error message on a
    state table: for each metric it offers it shows the chart, titled and
    labelled after that metric. *)
Theorem show_map_chart (σ : store) (l : loc) (rows : list StateMetricsRow)
    (metric : string) :
  σ !! l = Some (StateMetrics rows) ->
  metric ∈ map_metric_options ->
  exists fig config,
    choropleth_metric_config !! metric = Some config /\
    (show_map l metric σ).1 = Ok (Chart fig) /\
    title_text (layout fig) = Some (ch_title config) /\
    coloraxis_colorbar_title (layout fig) = Some (ch_labels_z config).
Proof.
  intros Hl [config Hc]%map_options_config.
  destruct (choropleth_known_metric σ l rows metric config Hl Hc) as (fig & Hfig & Ht & Hb).
  exists fig, config. split; [done|]. unfold show_map. by rewrite try_chart_run, Hfig.
Qed.

Lemma show_map_chart_witness :
  sample_store !! 0%nat = Some (StateMetrics sample_state) /\
  ("FlightCount" ∈ map_metric_options) /\
  exists fig config,
    choropleth_metric_config !! "FlightCount" = Some config /\
    (show_map 0%nat "FlightCount" sample_store).1 = Ok (Chart fig) /\
    title_text (layout fig) = Some (ch_title config) /\
    coloraxis_colorbar_title (layout fig) = Some (ch_labels_z config).
Proof.
  assert ("FlightCount" ∈ map_metric_options) as Hm by compute_done.
  split; [reflexivity|]. split; [exact Hm|].
  exact (show_map_chart sample_store 0%nat sample_state "FlightCount" eq_refl Hm).
Defined.

Lemma state_column_cases metric f :
  state_column metric = Some f ->
  metric ∈ map_metric_options \/ (forall r, exists s, f r = Str s).
Proof.
  unfold state_column, map_metric_options.
  destruct (String.eqb_spec metric "StateCode") as [->|?].
  { intros [= <-]. right. intros r. by eexists. }
  destruct (String.eqb_spec metric "StateName") as [->|?].
  { intros [= <-]. right. intros r. by eexists. }
  destruct (String.eqb_spec metric "AvgDepDelay") as [->|?]; [left; set_solver|].
  destruct (String.eqb_spec metric "CancellationRate") as [->|?]; [left; set_solver|].
  destruct (String.eqb_spec metric "FlightCount") as [->|?]; [left; set_solver|].
  done.
Qed.

(** X18. On a state table with at least one row, with the five columns
    of the data model, [create_choropleth] returns a figure exactly for
    the three metrics of its descriptor table: any other string names no
    column (ValueError of px.choropleth) or a column of strings, which the
    number format of the labels rejects (ValueError). *)
Theorem choropleth_returns_iff (σ : store) (l : loc) (rows : list StateMetricsRow)
    (metric : string) :
  σ !! l = Some (StateMetrics rows) ->
  rows <> [] ->
  ((exists fig, (create_choropleth l metric σ).1 = Ok fig) <->
   metric ∈ ["AvgDepDelay"; "CancellationRate"; "FlightCount"]) /\
  (metric ∉ ["AvgDepDelay"; "CancellationRate"; "FlightCount"] ->
   (create_choropleth l metric σ).1 = Raise ValueError).
Proof.
  intros Hl Hne.
  assert (metric ∉ ["AvgDepDelay"; "CancellationRate"; "FlightCount"] ->
          (create_choropleth l metric σ).1 = Raise ValueError) as Hraise.
  { intros Hn. rewrite (create_choropleth_run _ _ _ _ Hl).
    unfold choropleth_of_rows, px_choropleth.
    destruct (state_column metric) as [f|] eqn:Hf; [|done].
    destruct (state_column_cases _ _ Hf) as [?|Hstr]; [done|].
    destruct rows as [|r rows]; [done|]. cbn [map_result].
    unfold map_label at 1. rewrite Hf.
    change (state_column "StateName") with (Some (fun r => Str (sm_StateName r))).
    cbv beta iota. by destruct (Hstr r) as [s ->]. }
  split; [|done]. split.
  - intros [fig Hfig].
    destruct (decide (metric ∈ ["AvgDepDelay"; "CancellationRate"; "FlightCount"]));
      [done|]. rewrite Hraise in Hfig by done. done.
  - intros [config Hc]%map_options_config.
    destruct (choropleth_known_metric σ l rows metric config Hl Hc) as (fig & Hfig & _).
    by exists fig.
Qed.

Lemma choropleth_returns_iff_witness :
  sample_store !! 0%nat = Some (StateMetrics sample_state) /\
  sample_state <> [] /\
  ("StateName" ∉ ["AvgDepDelay"; "CancellationRate"; "FlightCount"]) /\
  (create_choropleth 0%nat "StateName" sample_store).1 = Raise ValueError.
Proof.
  assert ("StateName" ∉ ["AvgDepDelay"; "CancellationRate"; "FlightCount"]) as Hn
    by compute_done.
  split; [reflexivity|]. split; [done|]. split; [exact Hn|].
  destruct (choropleth_returns_iff sample_store 0%nat sample_state "StateName" eq_refl)
    as [_ Hraise]; [done|].
  by apply Hraise.
Defined.



(** ** The KPI cards *)

Lemma py_int_nonneg (q : Q) : (0 <= q)%Q -> py_int q = Qfloor q.
Proof.
  destruct q as [n d]. unfold py_int, Qfloor, Qle. simpl. intros Hn.
  apply Z.quot_div_nonneg; lia.
Qed.

Lemma py_int_mono (c t : Q) : (0 <= c)%Q -> (c <= t)%Q -> 0 <= py_int c <= py_int t.
Proof.
  intros Hc Hct. assert (0 <= t)%Q as Ht by (by eapply Qle_trans).
  rewrite !py_int_nonneg by done. split.
  - change 0 with (Qfloor 0). by apply Qfloor_resp_le.
  - by apply Qfloor_resp_le.
Qed.

(** X20. The KPI cards: an empty summary table ends the page with an
    IndexError; otherwise only the first row counts and a missing column
    counts as 0, so that without a column TotalCancelled every flight is
    shown as operational; when the cancelled flights are between 0 and
    the total, so are the operational flights. *)
Theorem kpi_cards_edges (stats : gmap string Q) (rest : list (gmap string Q)) :
  kpi_cards [] = Raise IndexError /\
  exists k,
    kpi_cards (stats :: rest) = Ok k /\
    kpi_cards [stats] = Ok k /\
    operational_flights k = total_flights k - total_cancelled k /\
    (stats !! "TotalCancelled" = None -> operational_flights k = total_flights k) /\
    (forall t c, stats !! "TotalFlights" = Some t -> stats !! "TotalCancelled" = Some c ->
       (0 <= c)%Q -> (c <= t)%Q ->
       0 <= operational_flights k <= total_flights k).
Proof.
  split; [done|]. eexists. split; [reflexivity|]. split; [reflexivity|].
  split; [reflexivity|]. cbn [operational_flights total_flights]. split.
  - intros Hc. unfold dict_get at 2. rewrite Hc. simpl.
    change (py_int 0) with 0. lia.
  - intros t c Ht Hc Hc0 Hct. unfold dict_get. rewrite Ht, Hc. simpl.
    pose proof (py_int_mono c t Hc0 Hct). lia.
Qed.

Lemma kpi_cards_edges_witness :
  exists k,
    kpi_cards sample_summary = Ok k /\
    operational_flights k = 570000 /\ total_cancelled k = 0.
Proof.
  destruct (kpi_cards_edges
              (<["AvgDepartureDelay" := (25 # 2)%Q]>
               (<["CancellationRate" := (3 # 2)%Q]>
               (<["TotalFlights" := 570000%Q]> ∅))) []) as (_ & k & Hk & _).
  exists k. split; [exact Hk|].
  assert (Ok k = kpi_cards sample_summary) as Hk' by (by rewrite <- Hk).
  vm_compute in Hk'. by injection Hk' as ->.
Defined.
